(** * fidelity/disp_div.py: dividend and reinvestment reports

    A shallow embedding of [src/fidelity/disp_div.py] and the properties of
    its loader, its two row filters and its totals view.

    Modelling choices, all taken from the source and from the documented
    behaviour of the pandas calls it makes:

    - Text is [string] (bytes); upper-casing and case-insensitive matching
      fold the 26 ASCII letters only.
    - A data frame is a header and a list of rows, a row a list of cells.
      A cell is missing ([NA], pandas' NaN), a text or a number.  The
      [Action] and [Symbol] columns are text columns (each cell a text or
      missing); header names are taken to be pairwise distinct once
      stripped, so that [df[name]] is a column.
    - Amounts are float64 in pandas.  Here an amount is the exact rational
      value of the float and sums are exact: rounding inside a sum is not
      part of the model.
    - [pd.read_csv] is not re-implemented: the file system says, for each
      path, whether it exists and what [pd.read_csv] makes of it.  The
      numeric parser behind [pd.to_numeric] is a parameter.
    - [print] appends to a trace; each entry records the source line of the
      [print] call.  Log records ([logger.debug], [logger.error]) are not
      part of the trace. *)

From Stdlib Require Import String Ascii List Bool ZArith QArith Qabs Lia DecimalString.
From Stdlib Require Import Sorted.
Import ListNotations.

Local Open Scope string_scope.

(* ------------------------------------------------------------------ *)
(** ** Text *)

Module PyStr.

Definition is_lower_letter (c : ascii) : bool :=
  let n := N_of_ascii c in (97 <=? n)%N && (n <=? 122)%N.

Definition is_upper_letter (c : ascii) : bool :=
  let n := N_of_ascii c in (65 <=? n)%N && (n <=? 90)%N.

Definition upper_char (c : ascii) : ascii :=
  if is_lower_letter c then ascii_of_N (N_of_ascii c - 32) else c.

Definition lower_char (c : ascii) : ascii :=
  if is_upper_letter c then ascii_of_N (N_of_ascii c + 32) else c.

(** [str.upper()] *)
Fixpoint upper (s : string) : string :=
  match s with
  | EmptyString => EmptyString
  | String c s' => String (upper_char c) (upper s')
  end.

(** [str.lower()] *)
Fixpoint lower (s : string) : string :=
  match s with
  | EmptyString => EmptyString
  | String c s' => String (lower_char c) (lower s')
  end.

(** White space of [str.strip()]: tab, line feed, vertical tab, form
    feed, carriage return, the four separators 28..31 and the space. *)
Definition is_space (c : ascii) : bool :=
  let n := N_of_ascii c in
  ((9 <=? n)%N && (n <=? 13)%N) || ((28 <=? n)%N && (n <=? 32)%N).

Fixpoint lstrip (s : string) : string :=
  match s with
  | EmptyString => EmptyString
  | String c s' => if is_space c then lstrip s' else s
  end.

Fixpoint rstrip (s : string) : string :=
  match s with
  | EmptyString => EmptyString
  | String c s' =>
      match rstrip s' with
      | EmptyString => if is_space c then EmptyString else String c EmptyString
      | t => String c t
      end
  end.

(** [str.strip()] *)
Definition strip (s : string) : string := rstrip (lstrip s).

(** The regular expression of [str.contains(pat, case=False)] for a
    pattern without metacharacters: [re.search] with [re.IGNORECASE]
    tries the pattern at every offset of the text. *)
Fixpoint match_here (pat s : string) : bool :=
  match pat, s with
  | EmptyString, _ => true
  | String _ _, EmptyString => false
  | String p pat', String c s' =>
      Ascii.eqb (lower_char p) (lower_char c) && match_here pat' s'
  end.

Fixpoint search_ignorecase (pat s : string) : bool :=
  match_here pat s
  || match s with
     | EmptyString => false
     | String _ s' => search_ignorecase pat s'
     end.

(** Truth value of a string: the empty string is false. *)
Definition truthy (s : string) : bool :=
  match s with EmptyString => false | String _ _ => true end.

(** What the specification calls "contains, case-insensitively": the
    lower-cased text has the lower-cased needle as a contiguous part. *)
Definition contains_ci (needle text : string) : Prop :=
  exists pre post, lower text = pre ++ lower needle ++ post.

(** What the specification calls "equal, case-insensitively". *)
Definition equal_ci (a b : string) : Prop := lower a = lower b.

End PyStr.

(* ------------------------------------------------------------------ *)
(** ** Exceptions and results *)

Inductive exn : Type :=
| FileNotFoundError (msg : string)
| RuntimeError (msg : string)
| KeyError (key : string)
| EmptyDataError          (* pd.errors.EmptyDataError *)
| ParserError.            (* pd.errors.ParserError *)

Inductive result (A : Type) : Type :=
| Ok (a : A)
| Raise (e : exn).

Arguments Ok {A} a.
Arguments Raise {A} e.

Definition bind {A B : Type} (m : result A) (k : A -> result B) : result B :=
  match m with
  | Ok a => k a
  | Raise e => Raise e
  end.

Declare Scope exc_scope.
Delimit Scope exc_scope with exc.
Notation "x <- m ;; k" := (bind m (fun x => k))
  (at level 61, m at next level, right associativity) : exc_scope.

(* ------------------------------------------------------------------ *)
(** ** Data frames *)

Inductive cell : Type :=
| NA                      (* NaN: a missing value *)
| Text (s : string)
| Number (q : Q).

Definition row : Type := list cell.

Record DataFrame : Type := mkFrame {
  columns : list string;
  data : list row
}.

Module Pandas.

(** Position of the first column named [name]. *)
Fixpoint get_loc (name : string) (cols : list string) : option nat :=
  match cols with
  | [] => None
  | c :: cols' =>
      if String.eqb c name then Some 0%nat
      else option_map S (get_loc name cols')
  end.

(** The cell of a row at a position; a row shorter than the header is
    filled with missing values, as [pd.read_csv] does. *)
Definition at_pos (i : nat) (r : row) : cell := nth i r NA.

(** [df[name]] *)
Definition getitem (df : DataFrame) (name : string) : result (list cell) :=
  match get_loc name (columns df) with
  | Some i => Ok (map (at_pos i) (data df))
  | None => Raise (KeyError name)
  end.

Fixpoint set_pos (i : nat) (r : row) (v : cell) : row :=
  match i, r with
  | O, [] => [v]
  | O, _ :: r' => v :: r'
  | S i', [] => NA :: set_pos i' [] v
  | S i', c :: r' => c :: set_pos i' r' v
  end.

(** [df[name] = col], for a column of the frame's length: an existing
    column is overwritten, a new name is appended to the header. *)
Definition setitem (df : DataFrame) (name : string) (col : list cell)
  : DataFrame :=
  match get_loc name (columns df) with
  | Some i =>
      mkFrame (columns df)
              (map (fun rv => set_pos i (fst rv) (snd rv))
                   (combine (data df) col))
  | None =>
      mkFrame (columns df ++ [name])%list
              (map (fun rv => set_pos (length (columns df)) (fst rv) (snd rv))
                   (combine (data df) col))
  end.

(** [df.columns = df.columns.str.strip()] *)
Definition strip_columns (df : DataFrame) : DataFrame :=
  mkFrame (map PyStr.strip (columns df)) (data df).

(** [col.str.contains(pat, case=False, na=False)]: a cell that is not a
    text gives NaN, which [na=False] turns into False. *)
Definition str_contains (pat : string) (col : list cell) : list bool :=
  map (fun c => match c with
                | Text s => PyStr.search_ignorecase pat s
                | _ => false
                end) col.

(** [col >= 0] on a numeric column: NaN compares False. *)
Definition ge_zero (col : list cell) : list bool :=
  map (fun c => match c with
                | Number q => Qle_bool 0 q
                | _ => false
                end) col.

(** [col == s] for a text [s]: a missing cell compares False. *)
Definition eq_text (col : list cell) (s : string) : list bool :=
  map (fun c => match c with
                | Text t => String.eqb t s
                | _ => false
                end) col.

(** [m1 & m2] *)
Definition mask_and (m1 m2 : list bool) : list bool :=
  map (fun ab => fst ab && snd ab) (combine m1 m2).

(** [df[mask]]: the rows whose mask is True, in their order. *)
Definition select (df : DataFrame) (mask : list bool) : DataFrame :=
  mkFrame (columns df)
          (map fst (filter snd (combine (data df) mask))).

(** [df.empty]: some axis has length 0. *)
Definition empty (df : DataFrame) : bool :=
  match columns df, data df with
  | [], _ => true
  | _, [] => true
  | _, _ => false
  end.

(** [col.sum()]: left to right from 0, missing values skipped. *)
Definition series_sum (col : list cell) : Q :=
  fold_left (fun acc c => match c with
                          | Number q => acc + q
                          | _ => acc
                          end) col 0.

(** Same value, same NaN: the test behind [unique]. *)
Definition cell_eqb (a b : cell) : bool :=
  match a, b with
  | NA, NA => true
  | Text s, Text t => String.eqb s t
  | Number p, Number q => Qeq_bool p q
  | _, _ => false
  end.

(** [col.unique()]: the distinct values in order of first appearance,
    NaN included. *)
Definition unique (col : list cell) : list cell :=
  fold_left (fun seen c => if existsb (cell_eqb c) seen then seen
                           else (seen ++ [c])%list) col [].

(** One step of grouping: the row joins the group of its key; groups are
    kept in increasing key order ([sort=True]). *)
Fixpoint insert_group (k : string) (r : row) (gs : list (string * list row))
  : list (string * list row) :=
  match gs with
  | [] => [(k, [r])]
  | (k', rs) :: gs' =>
      match String.compare k k' with
      | Eq => (k', (rs ++ [r])%list) :: gs'
      | Lt => (k, [r]) :: gs
      | Gt => (k', rs) :: insert_group k r gs'
      end
  end.

(** The keys are the texts of the column; a row whose cell is not a text
    joins no group. *)
Definition group_rows (i : nat) (rows : list row) : list (string * list row) :=
  fold_left (fun gs r => match at_pos i r with
                         | Text k => insert_group k r gs
                         | _ => gs
                         end) rows [].

(** [df.groupby(name)], iterated: the groups by increasing key, each a
    frame with the rows of that key in their order.  Rows whose key is
    missing are in no group ([dropna=True]). *)
Definition groupby (df : DataFrame) (name : string)
  : result (list (string * DataFrame)) :=
  match get_loc name (columns df) with
  | Some i =>
      Ok (map (fun kg => (fst kg, mkFrame (columns df) (snd kg)))
              (group_rows i (data df)))
  | None => Raise (KeyError name)
  end.

(** [df[[n1, n2, ...]]]: the named columns, in that order. *)
Fixpoint locs (names cols : list string) : result (list nat) :=
  match names with
  | [] => Ok []
  | n :: names' =>
      match get_loc n cols with
      | Some i =>
          match locs names' cols with
          | Ok l => Ok (i :: l)
          | Raise e => Raise e
          end
      | None => Raise (KeyError n)
      end
  end.

Definition getitems (df : DataFrame) (names : list string) : result DataFrame :=
  match locs names (columns df) with
  | Ok l => Ok (mkFrame names (map (fun r => map (fun i => at_pos i r) l) (data df)))
  | Raise e => Raise e
  end.

End Pandas.

(* ------------------------------------------------------------------ *)
(** ** Files *)

(** What [pd.read_csv] makes of an existing file: no columns to parse (an
    empty file), text that is not well-formed delimited text, or a frame
    whose header is the first line and whose cells are texts or missing
    (or numbers, where pandas inferred a numeric column). *)
Inductive csv_content : Type :=
| NoColumns
| Malformed
| Parsed (df : DataFrame).

(** A file system: the paths that exist, each with its content. *)
Definition filesystem : Type := string -> option csv_content.

(** [os.path.exists(path)] *)
Definition os_path_exists (fs : filesystem) (path : string) : bool :=
  match fs path with
  | Some _ => true
  | None => false
  end.

(** [pd.read_csv(path)] *)
Definition pd_read_csv (fs : filesystem) (path : string) : result DataFrame :=
  match fs path with
  | None => Raise (FileNotFoundError path)
  | Some NoColumns => Raise EmptyDataError
  | Some Malformed => Raise ParserError
  | Some (Parsed df) => Ok df
  end.

(* ------------------------------------------------------------------ *)
(** ** class Action, class Dividend *)

Inductive Action : Type := DIVIDEND | INVESTMENT.

Definition Action_value (a : Action) : string :=
  match a with
  | DIVIDEND => "dividend"
  | INVESTMENT => "investment"
  end.

Record Dividend : Type := mkDividend {
  file_path : string;
  action : Action;
  symbol : option string        (* None, or the text given with --symbol *)
}.

(** [if self.symbol:] *)
Definition symbol_given (self : Dividend) : option string :=
  match symbol self with
  | Some s => if PyStr.truthy s then Some s else None
  | None => None
  end.

Section Loader.

Local Open Scope exc_scope.

(** The numeric parser of [pd.to_numeric]: the value of a text that is a
    number, [None] for any other text. *)
Variable numeric_literal : string -> option Q.

(** [pd.to_numeric(col, errors="coerce")] *)
Definition coerce (c : cell) : cell :=
  match c with
  | Text s =>
      match numeric_literal s with
      | Some q => Number q
      | None => NA
      end
  | Number q => Number q
  | NA => NA
  end.

Definition to_numeric (col : list cell) : list cell := map coerce col.

Definition _load_and_filter_dividends (fs : filesystem) (self : Dividend)
  : result DataFrame :=
  df <- pd_read_csv fs (file_path self) ;;
  let df := Pandas.strip_columns df in
  amount <- Pandas.getitem df "Amount ($)" ;;
  let df := Pandas.setitem df "Amount ($)" (to_numeric amount) in
  act <- Pandas.getitem df "Action" ;;
  amount <- Pandas.getitem df "Amount ($)" ;;
  let mask := Pandas.mask_and (Pandas.str_contains "DIVIDEND" act)
                              (Pandas.ge_zero amount) in
  mask <- match symbol_given self with
          | Some s =>
              sym <- Pandas.getitem df "Symbol" ;;
              Ok (Pandas.mask_and mask (Pandas.eq_text sym (PyStr.upper s)))
          | None => Ok mask
          end ;;
  Ok (Pandas.select df mask).

Definition _load_and_filter_investments (fs : filesystem) (self : Dividend)
  : result DataFrame :=
  df <- pd_read_csv fs (file_path self) ;;
  let df := Pandas.strip_columns df in
  amount <- Pandas.getitem df "Amount ($)" ;;
  let df := Pandas.setitem df "Amount ($)" (to_numeric amount) in
  act <- Pandas.getitem df "Action" ;;
  let mask := Pandas.str_contains "REINVESTMENT" act in
  mask <- match symbol_given self with
          | Some s =>
              sym <- Pandas.getitem df "Symbol" ;;
              Ok (Pandas.mask_and mask (Pandas.eq_text sym (PyStr.upper s)))
          | None => Ok mask
          end ;;
  Ok (Pandas.select df mask).

(** [Dividend.__enter__].  The value a Python call returns may be [None];
    the method returns the frame it built.  Of the exceptions raised
    inside the [try], the [except] clause names two. *)
Definition __enter__ (fs : filesystem) (self : Dividend)
  : result (option DataFrame) :=
  if negb (os_path_exists fs (file_path self)) then
    Raise (FileNotFoundError ("File not found: " ++ file_path self))
  else
    match (match action self with
           | DIVIDEND => _load_and_filter_dividends fs self
           | INVESTMENT => _load_and_filter_investments fs self
           end) with
    | Ok df => Ok (Some df)
    | Raise EmptyDataError | Raise ParserError =>
        Raise (RuntimeError ("Invalid CSV format in " ++ file_path self))
    | Raise e => Raise e
    end.

(** [Dividend.__exit__]: True, the exception is suppressed; here it is
    True only when there is none. *)
Definition __exit__ (exc : option exn) : bool :=
  match exc with
  | None => true
  | Some _ => false
  end.

End Loader.

(* ------------------------------------------------------------------ *)
(** ** Printing *)

(** What a [print] call is given: a text, the [str] of a cell, a list of
    cells, a frame shown by pandas, or the text of [to_string()]. *)
Inductive shown : Type :=
| Plain (s : string)
| StrOf (c : cell)
| ListOf (l : list cell)
| FrameRepr (df : DataFrame)
| FrameString (df : DataFrame).

Record printed : Type := mkPrinted {
  lineno : nat;                 (* source line of the print call *)
  content : shown
}.

(** A computation that prints and then returns or raises. *)
Definition IO (A : Type) : Type := (list printed * result A)%type.

Definition io_ret {A : Type} (a : A) : IO A := ([], Ok a).

Definition io_bind {A B : Type} (m : IO A) (k : A -> IO B) : IO B :=
  match m with
  | (out, Ok a) => let (out', r) := k a in ((out ++ out')%list, r)
  | (out, Raise e) => (out, Raise e)
  end.

Definition lift {A : Type} (r : result A) : IO A := ([], r).

Definition print (line : nat) (what : shown) : IO unit :=
  ([mkPrinted line what], Ok tt).

Declare Scope io_scope.
Delimit Scope io_scope with io.
Notation "x <- m ;; k" := (io_bind m (fun x => k))
  (at level 61, m at next level, right associativity) : io_scope.
Notation "m ;; k" := (io_bind m (fun _ => k))
  (at level 61, right associativity) : io_scope.

(** [for x in l: body] *)
Fixpoint for_each {A : Type} (l : list A) (body : A -> IO unit) : IO unit :=
  match l with
  | [] => io_ret tt
  | x :: l' => io_bind (body x) (fun _ => for_each l' body)
  end.

(** The texts among the printed entries, in order. *)
Definition plain_lines (out : list printed) : list string :=
  flat_map (fun p => match content p with
                     | Plain s => [s]
                     | _ => []
                     end) out.

(** *** The format [:.2f] *)

Module Format.

(** Nearest integer, a tie going to the even one. *)
Definition round_half_even (q : Q) : Z :=
  let n := Qnum q in
  let d := Zpos (Qden q) in
  let lo := (n / d)%Z in
  match (2 * (n mod d) ?= d)%Z with
  | Lt => lo
  | Gt => (lo + 1)%Z
  | Eq => if Z.even lo then lo else (lo + 1)%Z
  end.

Definition decimal (n : Z) : string :=
  NilZero.string_of_uint (N.to_uint (Z.to_N n)).

Definition two_digits (n : Z) : string :=
  decimal (n / 10) ++ decimal (n mod 10).

(** [f"{q:.2f}"]: sign, integer part, point, two decimals. *)
Definition fixed2 (q : Q) : string :=
  let hundredths := round_half_even (Qabs q * 100) in
  (if Qle_bool 0 q then "" else "-")
  ++ decimal (hundredths / 100) ++ "." ++ two_digits (hundredths mod 100).

End Format.

(* ------------------------------------------------------------------ *)
(** ** dividend_csv_process *)

Definition view : Type := DataFrame -> IO unit.

(** A [dict] with text keys: assignment overwrites the value of a key that
    is present and appends a new key. *)
Fixpoint dict_set {V : Type} (k : string) (v : V) (d : list (string * V))
  : list (string * V) :=
  match d with
  | [] => [(k, v)]
  | (k', v') :: d' =>
      if String.eqb k' k then (k', v) :: d' else (k', v') :: dict_set k v d'
  end.

Fixpoint dict_get {V : Type} (k : string) (d : list (string * V)) : option V :=
  match d with
  | [] => None
  | (k', v') :: d' => if String.eqb k' k then Some v' else dict_get k d'
  end.

Definition shown_columns : list string := ["Run Date"; "Symbol"; "Amount ($)"].

Local Open Scope io_scope.

(** The module-level [report_map], lines 22 to 28, and its five lambdas. *)
Definition report_sum : view := fun divs =>
  sel <- lift (Pandas.getitems divs shown_columns) ;;
  print 23 (FrameRepr sel).

Definition report_symbols : view := fun divs =>
  sym <- lift (Pandas.getitem divs "Symbol") ;;
  print 24 (ListOf (Pandas.unique sym)).

Definition report_details : view := fun divs =>
  print 25 (FrameRepr divs).

Definition report_print : view := fun divs =>
  sel <- lift (Pandas.getitems divs shown_columns) ;;
  print 26 (FrameRepr sel).

Definition report_all : view := fun divs =>
  sel <- lift (Pandas.getitems divs shown_columns) ;;
  print 27 (FrameString sel).

Definition report_map : list (string * view) :=
  [ ("sum", report_sum);
    ("symbols", report_symbols);
    ("details", report_details);
    ("print", report_print);
    ("all", report_all) ].

Definition REPORTS : list string := map fst report_map.

Module Views.

(** [sum(divs)], lines 111 to 119 *)
Definition sum (divs : DataFrame) : IO unit :=
  if Pandas.empty divs then
    print 113 (Plain "No dividends found.")
  else
    symbols <- lift (Pandas.groupby divs "Symbol") ;;
    for_each symbols (fun sg =>
      let (sym, group) := sg : string * DataFrame in
      amount <- lift (Pandas.getitem group "Amount ($)") ;;
      let total_amount := Pandas.series_sum amount in
      print 119 (Plain ("Total Amount for " ++ sym ++ ": $"
                        ++ Format.fixed2 total_amount))).

(** [symbols_details(divs)], lines 122 to 126 *)
Definition symbols_details (divs : DataFrame) : IO unit :=
  print 123 (Plain "Available Symbols:") ;;
  sym <- lift (Pandas.getitem divs "Symbol") ;;
  for_each (Pandas.unique sym) (fun s => print 126 (StrOf s)).

(** [details(divs)], lines 128 to 134 *)
Definition details (divs : DataFrame) : IO unit :=
  symbols <- lift (Pandas.groupby divs "Symbol") ;;
  for_each symbols (fun sg =>
    let (sym, group) := sg : string * DataFrame in
    print 131 (Plain (String "010" "Symbol: " ++ sym)) ;;
    sel <- lift (Pandas.getitems group shown_columns) ;;
    print 132 (FrameRepr sel) ;;
    amount <- lift (Pandas.getitem group "Amount ($)") ;;
    let total_amount := Pandas.series_sum amount in
    print 134 (Plain ("Total Amount for " ++ sym ++ ": $"
                      ++ Format.fixed2 total_amount))).

End Views.

Section Process.

Variable numeric_literal : string -> option Q.

(** [with Dividend(...) as divs: body] *)
Definition with_Dividend (fs : filesystem) (self : Dividend)
           (body : option DataFrame -> IO unit) : IO unit :=
  match __enter__ numeric_literal fs self with
  | Raise e => ([], Raise e)
  | Ok divs =>
      match body divs with
      | (out, Ok _) => let _ := __exit__ None in (out, Ok tt)
      | (out, Raise e) =>
          if __exit__ (Some e) then (out, Ok tt) else (out, Raise e)
      end
  end.

Definition dividend_csv_process (fs : filesystem) (report : string)
           (action : Action) (file_path : string) (symbol : option string)
  : IO unit :=
  print 110 (Plain ("Processing file: " ++ file_path ++ " for action: "
                    ++ Action_value action ++ " with report: " ++ report)) ;;
  let report_map := dict_set "sum" Views.sum report_map in
  let report_map := dict_set "details" Views.details report_map in
  let report_map := dict_set "symbols" Views.symbols_details report_map in
  with_Dividend fs (mkDividend file_path action symbol) (fun divs =>
    match divs with
    | None => print 142 (Plain "No data available.")
    | Some divs =>
        match dict_get report report_map with
        | Some report_view => report_view divs
        | None => print 147 (Plain ("Unknown report: " ++ report))
        end
    end).

Definition Action_of_value (s : string) : option Action :=
  if String.eqb s "dividend" then Some DIVIDEND
  else if String.eqb s "investment" then Some INVESTMENT
  else None.

(** [main], as the click command runs it: an argument that fails its
    check ends the process with status 2 before [main] is entered; a
    normal return gives status 0, an exception that escapes status 1.
    The log level sets what is logged and is left out. *)
Definition main (fs : filesystem) (report action file_path : string)
           (symbol : option string) : list printed * Z :=
  if negb (existsb (String.eqb report) REPORTS) then ([], 2%Z)
  else
    match Action_of_value action with
    | None => ([], 2%Z)
    | Some a =>
        if negb (os_path_exists fs file_path) then ([], 2%Z)
        else
          match dividend_csv_process fs report a file_path symbol with
          | (out, Ok _) => (out, 0%Z)
          | (out, Raise _) => (out, 1%Z)
          end
    end.

End Process.

Local Close Scope io_scope.

(* ------------------------------------------------------------------ *)
(** ** The vocabulary of the specification *)

(** The cell of a row under a column name. *)
Definition field (df : DataFrame) (name : string) (r : row) : cell :=
  match Pandas.get_loc name (columns df) with
  | Some i => Pandas.at_pos i r
  | None => NA
  end.



(** The row of a loaded frame that a row of the file becomes. *)
Definition coerce_row (numeric_literal : string -> option Q) (i : nat) (r : row)
  : row :=
  Pandas.set_pos i r (coerce numeric_literal (Pandas.at_pos i r)).

(** The loaded row set: the three lines both methods start with (75 to
    77, and again 87 to 89). *)
Definition load (numeric_literal : string -> option Q) (fs : filesystem)
           (path : string) : result DataFrame :=
  bind (pd_read_csv fs path) (fun df =>
  let df := Pandas.strip_columns df in
  bind (Pandas.getitem df "Amount ($)") (fun amount =>
  Ok (Pandas.setitem df "Amount ($)" (to_numeric numeric_literal amount)))).

(** Dividend row: the action text contains "dividend", whatever the case,
    and the amount is a number that is not negative. *)
Definition is_dividend_row (df : DataFrame) (r : row) : Prop :=
  (exists s, field df "Action" r = Text s /\ PyStr.contains_ci "dividend" s)
  /\ (exists q, field df "Amount ($)" r = Number q /\ 0 <= q).

(** Reinvestment row: the action text contains "reinvestment", whatever
    the case. *)
Definition is_reinvestment_row (df : DataFrame) (r : row) : Prop :=
  exists s, field df "Action" r = Text s /\ PyStr.contains_ci "reinvestment" s.

(** The symbol filter as the specification words it: the row's symbol and
    the filter are equal, whatever the case. *)
Definition symbol_matches_ci (df : DataFrame) (filter_symbol : string) (r : row)
  : Prop :=
  exists s, field df "Symbol" r = Text s /\ PyStr.equal_ci s filter_symbol.

(** The symbol filter as lines 83 and 93 compute it, for one row. *)
Definition symbol_kept (df : DataFrame) (filter_symbol : string) (r : row)
  : bool :=
  match field df "Symbol" r with
  | Text t => String.eqb t (PyStr.upper filter_symbol)
  | _ => false
  end.




(** The line printed for one total (line 119). *)
Definition total_line (st : string * Q) : printed :=
  mkPrinted 119 (Plain ("Total Amount for " ++ fst st ++ ": $"
                        ++ Format.fixed2 (snd st))).




(** The line printed before the file is opened (line 110). *)
Definition banner (report : string) (action : Action) (path : string) : printed :=
  mkPrinted 110 (Plain ("Processing file: " ++ path ++ " for action: "
                        ++ Action_value action ++ " with report: " ++ report)).

(** A file system with one file. *)
Definition one_file (path : string) (content : csv_content) : filesystem :=
  fun p => if String.eqb p path then Some content else None.

(** The file of the scenario in the specification. *)
Definition scenario : DataFrame :=
  mkFrame
    ["Run Date"; "Action"; "Symbol"; "Amount ($)"]
    [ [Text "2025-01-01"; Text "DIVIDEND RECEIVED"; Text "AAA"; Number 5];
      [Text "2025-01-02"; Text "DIVIDEND RECEIVED"; Text "AAA"; Number 3];
      [Text "2025-01-03"; Text "DIVIDEND REVERSAL"; Text "AAA"; Number (-1 # 1)];
      [Text "2025-01-04"; Text "REINVESTMENT"; Text "BBB"; Number (-10 # 1)] ].

(** *** The two filters, row by row

    The methods compute their masks column by column.  The same filters,
    written as a test on one row of the loaded frame: *)

Definition filter_rows (df : DataFrame) (keep : row -> bool) : DataFrame :=
  mkFrame (columns df) (filter keep (data df)).

Definition symbol_keep (df : DataFrame) (sym : option string) (r : row) : bool :=
  match sym with
  | Some s => symbol_kept df s r
  | None => true
  end.

Definition dividend_keep (df : DataFrame) (sym : option string) (r : row) : bool :=
  (match field df "Action" r with
   | Text s => PyStr.search_ignorecase "DIVIDEND" s
   | _ => false
   end)
  && (match field df "Amount ($)" r with
      | Number q => Qle_bool 0 q
      | _ => false
      end)
  && symbol_keep df sym r.

Definition investment_keep (df : DataFrame) (sym : option string) (r : row) : bool :=
  (match field df "Action" r with
   | Text s => PyStr.search_ignorecase "REINVESTMENT" s
   | _ => false
   end)
  && symbol_keep df sym r.

(** The columns a method reads after loading; a missing one raises. *)
Definition require_columns (df : DataFrame) (sym : option string) : result unit :=
  bind (Pandas.getitem df "Action") (fun _ =>
  match sym with
  | Some _ => bind (Pandas.getitem df "Symbol") (fun _ => Ok tt)
  | None => Ok tt
  end).

Definition dividends_rowwise (numeric_literal : string -> option Q)
           (fs : filesystem) (self : Dividend) : result DataFrame :=
  bind (load numeric_literal fs (file_path self)) (fun loaded =>
  bind (require_columns loaded (symbol_given self)) (fun _ =>
  Ok (filter_rows loaded (dividend_keep loaded (symbol_given self))))).

Definition investments_rowwise (numeric_literal : string -> option Q)
           (fs : filesystem) (self : Dividend) : result DataFrame :=
  bind (load numeric_literal fs (file_path self)) (fun loaded =>
  bind (require_columns loaded (symbol_given self)) (fun _ =>
  Ok (filter_rows loaded (investment_keep loaded (symbol_given self))))).

(** Every entry of the trace comes from a line with the property [P]. *)
Definition prints_only (P : nat -> Prop) {A : Type} (m : IO A) : Prop :=
  Forall (fun p => P (lineno p)) (fst m).

(** *** Further vocabulary *)

(** Lines 65 to 68: the method the action selects. *)
Definition load_and_filter (numeric_literal : string -> option Q)
           (fs : filesystem) (self : Dividend) : result DataFrame :=
  match action self with
  | DIVIDEND => _load_and_filter_dividends numeric_literal fs self
  | INVESTMENT => _load_and_filter_investments numeric_literal fs self
  end.

(** The rows of a category. *)
Definition category_row (a : Action) (df : DataFrame) (r : row) : Prop :=
  match a with
  | DIVIDEND => is_dividend_row df r
  | INVESTMENT => is_reinvestment_row df r
  end.

(** The row test of a category. *)
Definition category_keep (a : Action) (df : DataFrame) (sym : option string)
           (r : row) : bool :=
  match a with
  | DIVIDEND => dividend_keep df sym r
  | INVESTMENT => investment_keep df sym r
  end.

(** The symbol test of lines 83 and 93, as a statement about one row. *)
Definition symbol_condition (df : DataFrame) (sym : option string) (r : row)
  : Prop :=
  match sym with
  | None => True
  | Some s => field df "Symbol" r = Text (PyStr.upper s)
  end.

(** The order of texts by code, strict. *)
Definition text_lt (a b : string) : Prop := String.compare a b = Lt.

(** The rows whose cell at a position is the text [k], in their order. *)
Definition rows_with_key (i : nat) (k : string) (rows : list row) : list row :=
  filter (fun r => match Pandas.at_pos i r with
                   | Text t => String.eqb t k
                   | _ => false
                   end) rows.

(** The rows of a frame with the symbol [k], in their order. *)
Definition rows_of_symbol (df : DataFrame) (k : string) : list row :=
  filter (fun r => match field df "Symbol" r with
                   | Text t => String.eqb t k
                   | _ => false
                   end) (data df).


(** The frame [df[["Run Date", "Symbol", "Amount ($)"]]] for some rows of
    [df]. *)
Definition shown_rows (df : DataFrame) (rows : list row) : DataFrame :=
  mkFrame shown_columns
          (map (fun r => map (fun name => field df name r) shown_columns) rows).

(** No cell of a list is equal to an earlier one. *)
Definition distinct_cells (l : list cell) : Prop :=
  forall l1 c l2, l = (l1 ++ c :: l2)%list ->
                  existsb (Pandas.cell_eqb c) l1 = false.


(** Every exception a computation raises has the property [P]. *)
Definition raises_only (P : exn -> Prop) {A : Type} (m : IO A) : Prop :=
  match snd m with
  | Ok _ => True
  | Raise e => P e
  end.

Definition is_KeyError (e : exn) : Prop := exists k, e = KeyError k.

(** A file with padded header names and a short row. *)
Definition padded_header : DataFrame :=
  mkFrame
    [" Run Date"; "Action "; " Symbol "; String "009" "Amount ($)  "]
    [ [Text "2025-01-01"; Text "Dividend Received"; Text "BBB"; Text "5.00"];
      [Text "2025-01-02"; Text "dividend received"; Text "AAA"; Text "3.00"];
      [Text "2025-01-03"; Text "REINVESTMENT"; Text "BBB"];
      [Text "2025-01-04"; Text "DIVIDEND RECEIVED"; Text "BBB"; Text "3.00"] ].

(** A file without the date column. *)
Definition no_date_column : DataFrame :=
  mkFrame
    ["Action"; "Symbol"; "Amount ($)"]
    [ [Text "DIVIDEND RECEIVED"; Text "BBB"; Number 5];
      [Text "DIVIDEND RECEIVED"; Text "AAA"; Number 3] ].

(** A file without the symbol column. *)
Definition no_symbol_column : DataFrame :=
  mkFrame
    ["Run Date"; "Action"; "Amount ($)"]
    [ [Text "2025-01-01"; Text "DIVIDEND RECEIVED"; Number 5] ].


(** *** Example inputs *)

(** A numeric parser that knows two literals. *)
Definition two_literals (s : string) : option Q :=
  if String.eqb s "5.00" then Some 5
  else if String.eqb s "3.00" then Some 3
  else None.

(** A file whose symbols are in lower case. *)
Definition lowercase_symbols : DataFrame :=
  mkFrame
    ["Run Date"; "Action"; "Symbol"; "Amount ($)"]
    [ [Text "2025-01-01"; Text "DIVIDEND RECEIVED"; Text "abc"; Number 5];
      [Text "2025-01-02"; Text "REINVESTMENT"; Text "abc"; Number (-5 # 1)] ].

(** A file without the amount column. *)
Definition no_amount_column : DataFrame :=
  mkFrame
    ["Run Date"; "Action"; "Symbol"]
    [ [Text "2025-01-01"; Text "DIVIDEND RECEIVED"; Text "AAA"] ].

(** A file with a dividend that has no symbol. *)
Definition dividend_without_symbol : DataFrame :=
  mkFrame
    ["Run Date"; "Action"; "Symbol"; "Amount ($)"]
    [ [Text "2025-01-01"; Text "DIVIDEND RECEIVED"; NA; Number 5] ].

(** A file with amounts as texts, one of them not a number. *)
Definition text_amounts : DataFrame :=
  mkFrame
    ["Run Date"; "Action"; "Symbol"; "Amount ($)"]
    [ [Text "2025-01-01"; Text "DIVIDEND RECEIVED"; Text "AAA"; Text "5.00"];
      [Text "2025-01-02"; Text "REINVESTMENT"; Text "AAA"; Text "--"];
      [Text "2025-01-03"; Text "REINVESTMENT"; Text "AAA"; Text "3.00"] ].

(* ------------------------------------------------------------------ *)
(** ** Text: the search is the containment of the specification *)

Section TextFacts.

Import PyStr.



Lemma upper_lower_char (c : ascii) : upper_char (lower_char c) = upper_char c.
Proof.
  destruct c as [[] [] [] [] [] [] [] []]; reflexivity.
Qed.

Lemma match_here_prefix (pat s : string) :
  match_here pat s = true <-> exists post, lower s = lower pat ++ post.
Proof.
  revert s; induction pat as [| p pat IH]; intros s; simpl.
  - split; [intros _; now exists (lower s) | reflexivity].
  - destruct s as [| c s]; simpl.
    + split; [discriminate | intros [post H]; discriminate].
    + rewrite andb_true_iff, Ascii.eqb_eq, IH.
      split.
      * intros [Hc [post Hs]]. exists post. now rewrite Hc, Hs.
      * intros [post H]. injection H as Hc Hs. split; [now symmetry | now exists post].
Qed.

Lemma search_contains (pat s : string) :
  search_ignorecase pat s = true <-> contains_ci pat s.
Proof.
  unfold contains_ci.
  induction s as [| c s IH].
  - simpl. rewrite orb_false_r, match_here_prefix. simpl. split.
    + intros [post H]. now exists "", post.
    + intros [pre [post H]]. destruct pre; simpl in H.
      * now exists post.
      * discriminate.
  - cbn [search_ignorecase]. rewrite orb_true_iff, match_here_prefix, IH.
    split.
    + intros [[post H] | [pre [post H]]].
      * now exists "", post.
      * exists (String (lower_char c) pre), post. simpl. now rewrite H.
    + intros [pre [post H]]. destruct pre as [| a pre]; simpl in H.
      * left. now exists post.
      * right. injection H as _ H. now exists pre, post.
Qed.

End TextFacts.

(* ------------------------------------------------------------------ *)
(** ** Frames: columns and masks, row by row *)

Section FrameFacts.

Import Pandas.

Lemma at_pos_nil (i : nat) : at_pos i [] = NA.
Proof. now destruct i. Qed.

Lemma at_pos_set_pos (i : nat) (r : row) (v : cell) :
  at_pos i (set_pos i r v) = v.
Proof.
  revert r; induction i as [| i IH]; intros [| c r]; simpl; auto;
    apply IH.
Qed.

Lemma at_pos_set_pos_other (i j : nat) (r : row) (v : cell) :
  i <> j -> at_pos j (set_pos i r v) = at_pos j r.
Proof.
  revert j r; induction i as [| i IH]; intros [| j] [| c r] Hij;
    try congruence; try reflexivity.
  - now destruct j.
  - change (at_pos j (set_pos i [] v) = NA).
    rewrite IH by congruence. apply at_pos_nil.
  - change (at_pos j (set_pos i r v) = at_pos j r).
    apply IH. congruence.
Qed.

Lemma select_map (f : row -> bool) (rows : list row) :
  map fst (filter snd (combine rows (map f rows))) = filter f rows.
Proof.
  induction rows as [| r rows IH]; simpl.
  - reflexivity.
  - destruct (f r); simpl; now rewrite IH.
Qed.

Lemma mask_and_map {A : Type} (f g : A -> bool) (l : list A) :
  mask_and (map f l) (map g l) = map (fun x => f x && g x) l.
Proof.
  unfold mask_and. induction l as [| x l IH]; simpl.
  - reflexivity.
  - now rewrite IH.
Qed.

Lemma assign_map (i : nat) (g : row -> cell) (rows : list row) :
  map (fun rv => set_pos i (fst rv) (snd rv)) (combine rows (map g rows))
  = map (fun r => set_pos i r (g r)) rows.
Proof.
  induction rows as [| r rows IH]; simpl.
  - reflexivity.
  - now rewrite IH.
Qed.

Lemma getitem_at (df : DataFrame) (name : string) (i : nat) :
  get_loc name (columns df) = Some i ->
  getitem df name = Ok (map (at_pos i) (data df)).
Proof.
  unfold getitem. now intros ->.
Qed.

Lemma getitem_missing (df : DataFrame) (name : string) :
  get_loc name (columns df) = None ->
  getitem df name = Raise (KeyError name).
Proof.
  unfold getitem. now intros ->.
Qed.

Lemma get_loc_In (name : string) (cols : list string) :
  In name cols <-> exists i, get_loc name cols = Some i.
Proof.
  induction cols as [| c cols IH]; simpl.
  - split; [tauto | intros [i H]; discriminate].
  - destruct (String.eqb_spec c name) as [-> | Hne].
    + split; [intros _; now exists 0%nat | now left].
    + rewrite IH. split.
      * intros [H | [i H]]; [congruence |]. exists (S i). now rewrite H.
      * intros [i H]. right. destruct (get_loc name cols) as [j |]; [now exists j | discriminate].
Qed.

Lemma field_at (df : DataFrame) (name : string) (i : nat) (r : row) :
  get_loc name (columns df) = Some i -> field df name r = at_pos i r.
Proof.
  unfold field. now intros ->.
Qed.

End FrameFacts.

(* ------------------------------------------------------------------ *)
(** ** The loader and the two filters *)

Section LoaderFacts.

Import Pandas.

Variable numeric_literal : string -> option Q.

(** Loading succeeds exactly on a parsed file that has an amount column,
    and coerces that column cell by cell. *)
Lemma load_unfold (fs : filesystem) (path : string) :
  load numeric_literal fs path =
  match fs path with
  | None => Raise (FileNotFoundError path)
  | Some NoColumns => Raise EmptyDataError
  | Some Malformed => Raise ParserError
  | Some (Parsed raw) =>
      match get_loc "Amount ($)" (map PyStr.strip (columns raw)) with
      | Some i => Ok (mkFrame (map PyStr.strip (columns raw))
                              (map (coerce_row numeric_literal i) (data raw)))
      | None => Raise (KeyError "Amount ($)")
      end
  end.
Proof.
  unfold load, pd_read_csv.
  destruct (fs path) as [[| | raw] |]; try reflexivity.
  cbn [bind]. unfold getitem, setitem, strip_columns.
  cbn [columns data].
  destruct (get_loc "Amount ($)" (map PyStr.strip (columns raw))) as [i |];
    [| reflexivity].
  cbn [bind]. unfold to_numeric. rewrite map_map, assign_map. reflexivity.
Qed.

Lemma load_inv (fs : filesystem) (path : string) (loaded : DataFrame) :
  load numeric_literal fs path = Ok loaded ->
  exists raw i,
    fs path = Some (Parsed raw)
    /\ get_loc "Amount ($)" (columns loaded) = Some i
    /\ columns loaded = map PyStr.strip (columns raw)
    /\ data loaded = map (coerce_row numeric_literal i) (data raw).
Proof.
  rewrite load_unfold.
  destruct (fs path) as [[| | raw] |]; try discriminate.
  destruct (get_loc "Amount ($)" (map PyStr.strip (columns raw))) as [i |] eqn:Hi;
    [| discriminate].
  intros [= <-]. exists raw, i. cbn [columns data]. auto.
Qed.

(** The amount of a loaded row is a number or missing, never a text. *)
Lemma coerce_not_text (c : cell) (s : string) : coerce numeric_literal c <> Text s.
Proof.
  destruct c as [| t | q]; simpl; try discriminate.
  destruct (numeric_literal t); discriminate.
Qed.

(** After loading, the amount of every row is a number or missing. *)
Lemma loaded_amount_numeric_or_missing (fs : filesystem) (path : string)
      (loaded : DataFrame) (r : row) :
  load numeric_literal fs path = Ok loaded ->
  In r (data loaded) ->
  field loaded "Amount ($)" r = NA
  \/ exists q, field loaded "Amount ($)" r = Number q.
Proof.
  intros Hload Hin.
  destruct (load_inv _ _ _ Hload) as [raw [i [_ [Hi [_ Hdata]]]]].
  rewrite Hdata in Hin. apply in_map_iff in Hin. destruct Hin as [r0 [<- _]].
  rewrite (field_at _ _ _ _ Hi). unfold coerce_row. rewrite at_pos_set_pos.
  destruct (coerce numeric_literal (at_pos i r0)) as [| t | q] eqn:Hc.
  - now left.
  - now apply coerce_not_text in Hc.
  - right. now exists q.
Qed.

Lemma masks_rowwise (loaded : DataFrame) (sym : option string)
      (base : row -> bool) (mask : list bool) :
  mask = map base (data loaded) ->
  bind (match sym with
        | Some s =>
            bind (getitem loaded "Symbol") (fun col =>
            Ok (mask_and mask (eq_text col (PyStr.upper s))))
        | None => Ok mask
        end) (fun mask => Ok (select loaded mask))
  = bind (match sym with
          | Some _ => bind (getitem loaded "Symbol") (fun _ => Ok tt)
          | None => Ok tt
          end) (fun _ =>
    Ok (filter_rows loaded (fun r => base r && symbol_keep loaded sym r))).
Proof.
  intros ->. unfold select, filter_rows.
  destruct sym as [s |]; cbn [bind symbol_keep].
  - unfold getitem, symbol_kept, field.
    destruct (get_loc "Symbol" (columns loaded)) as [k |]; [| reflexivity].
    cbn [bind]. unfold eq_text. rewrite map_map, mask_and_map, select_map.
    reflexivity.
  - rewrite select_map. do 2 f_equal.
    apply filter_ext. intros r. now rewrite andb_true_r.
Qed.

(** Lines 74 to 84, column by column, are the row-wise filter. *)
Lemma dividends_rowwise_eq (fs : filesystem) (self : Dividend) :
  _load_and_filter_dividends numeric_literal fs self
  = dividends_rowwise numeric_literal fs self.
Proof.
  unfold dividends_rowwise. rewrite load_unfold.
  unfold _load_and_filter_dividends, pd_read_csv.
  destruct (fs (file_path self)) as [[| | raw] |]; try reflexivity.
  cbn [bind]. unfold getitem at 1, setitem, strip_columns. cbn [columns data].
  destruct (get_loc "Amount ($)" (map PyStr.strip (columns raw))) as [i |] eqn:Hi;
    [| reflexivity].
  cbn [bind]. unfold to_numeric. rewrite map_map, assign_map.
  unfold coerce_row.
  set (loaded := mkFrame (map PyStr.strip (columns raw))
                         (map (fun r => set_pos i r (coerce numeric_literal (at_pos i r)))
                              (data raw))).
  assert (Hloc : get_loc "Amount ($)" (columns loaded) = Some i) by exact Hi.
  unfold require_columns.
  destruct (get_loc "Action" (columns loaded)) as [a |] eqn:Ha.
  - rewrite (getitem_at _ _ _ Ha), (getitem_at _ _ _ Hloc). cbn [bind].
    unfold str_contains, ge_zero. rewrite !map_map, mask_and_map.
    rewrite (masks_rowwise loaded (symbol_given self)
               (fun r => match at_pos a r with
                         | Text s => PyStr.search_ignorecase "DIVIDEND" s
                         | _ => false
                         end
                         && match at_pos i r with
                            | Number q => Qle_bool 0 q
                            | _ => false
                            end)) by reflexivity.
    destruct (match symbol_given self with
              | Some _ => bind (getitem loaded "Symbol") (fun _ => Ok tt)
              | None => Ok tt
              end); [| reflexivity].
    cbn [bind]. unfold filter_rows. do 2 f_equal.
    apply filter_ext. intros r. unfold dividend_keep.
    now rewrite (field_at _ _ _ _ Ha), (field_at _ _ _ _ Hloc).
  - now rewrite (getitem_missing _ _ Ha).
Qed.

(** Lines 86 to 94, column by column, are the row-wise filter. *)
Lemma investments_rowwise_eq (fs : filesystem) (self : Dividend) :
  _load_and_filter_investments numeric_literal fs self
  = investments_rowwise numeric_literal fs self.
Proof.
  unfold investments_rowwise. rewrite load_unfold.
  unfold _load_and_filter_investments, pd_read_csv.
  destruct (fs (file_path self)) as [[| | raw] |]; try reflexivity.
  cbn [bind]. unfold getitem at 1, setitem, strip_columns. cbn [columns data].
  destruct (get_loc "Amount ($)" (map PyStr.strip (columns raw))) as [i |] eqn:Hi;
    [| reflexivity].
  cbn [bind]. unfold to_numeric. rewrite map_map, assign_map.
  unfold coerce_row.
  set (loaded := mkFrame (map PyStr.strip (columns raw))
                         (map (fun r => set_pos i r (coerce numeric_literal (at_pos i r)))
                              (data raw))).
  unfold require_columns.
  destruct (get_loc "Action" (columns loaded)) as [a |] eqn:Ha.
  - rewrite (getitem_at _ _ _ Ha). cbn [bind].
    unfold str_contains. rewrite !map_map.
    rewrite (masks_rowwise loaded (symbol_given self)
               (fun r => match at_pos a r with
                         | Text s => PyStr.search_ignorecase "REINVESTMENT" s
                         | _ => false
                         end)) by reflexivity.
    destruct (match symbol_given self with
              | Some _ => bind (getitem loaded "Symbol") (fun _ => Ok tt)
              | None => Ok tt
              end); [| reflexivity].
    cbn [bind]. unfold filter_rows. do 2 f_equal.
    apply filter_ext. intros r. unfold investment_keep.
    now rewrite (field_at _ _ _ _ Ha).
  - now rewrite (getitem_missing _ _ Ha).
Qed.

End LoaderFacts.

(* ------------------------------------------------------------------ *)
(** ** The filters, one row at a time *)

Section RowFacts.

Variable df : DataFrame.


Lemma dividend_keep_iff (sym : option string) (r : row) :
  dividend_keep df sym r = true
  <-> is_dividend_row df r /\ symbol_keep df sym r = true.
Proof.
  unfold dividend_keep, is_dividend_row.
  rewrite !andb_true_iff.
  split.
  - intros [[Hact Hamt] Hsym]. repeat split; trivial.
    + destruct (field df "Action" r) as [| s |]; try discriminate.
      exists s. split; [reflexivity |].
      now apply (search_contains "DIVIDEND" s).
    + destruct (field df "Amount ($)" r) as [| | q]; try discriminate.
      exists q. split; [reflexivity |]. now apply Qle_bool_iff.
  - intros [[[s [Hs Hc]] [q [Hq Hle]]] Hsym]. rewrite Hs, Hq.
    repeat split; trivial.
    + now apply (search_contains "DIVIDEND" s).
    + now apply Qle_bool_iff.
Qed.

Lemma investment_keep_iff (sym : option string) (r : row) :
  investment_keep df sym r = true
  <-> is_reinvestment_row df r /\ symbol_keep df sym r = true.
Proof.
  unfold investment_keep, is_reinvestment_row.
  rewrite andb_true_iff.
  split.
  - intros [Hact Hsym]. split; trivial.
    destruct (field df "Action" r) as [| s |]; try discriminate.
    exists s. split; [reflexivity |].
    now apply (search_contains "REINVESTMENT" s).
  - intros [[s [Hs Hc]] Hsym]. rewrite Hs. split; trivial.
    now apply (search_contains "REINVESTMENT" s).
Qed.

(** What the symbol test of lines 83 and 93 decides. *)
Lemma symbol_kept_iff (s : string) (r : row) :
  symbol_kept df s r = true <-> field df "Symbol" r = Text (PyStr.upper s).
Proof.
  unfold symbol_kept.
  destruct (field df "Symbol" r) as [| t | q].
  - split; discriminate.
  - rewrite String.eqb_eq. split; congruence.
  - split; discriminate.
Qed.



End RowFacts.

(* ------------------------------------------------------------------ *)
(** ** The symbol filter and the two subsets *)

(** C1 (the code departs from it).  The symbol filter compares the row's
    symbol, as it stands in the file, with the upper-cased filter.  On a
    file whose two rows carry the symbol "abc", the filter "ABC" keeps no
    row, for dividends and for reinvestments alike, although both rows
    have the filter's symbol when case is ignored; the filter "abc", the
    very text of the file, keeps none either. *)
Theorem symbol_filter_drops_lowercase_symbol (numeric_literal : string -> option Q) :
  let fs := one_file "f.csv" (Parsed lowercase_symbols) in
  let no_rows := mkFrame (columns lowercase_symbols) [] in
  _load_and_filter_dividends numeric_literal fs
    (mkDividend "f.csv" DIVIDEND (Some "ABC")) = Ok no_rows
  /\ _load_and_filter_investments numeric_literal fs
       (mkDividend "f.csv" INVESTMENT (Some "ABC")) = Ok no_rows
  /\ _load_and_filter_dividends numeric_literal fs
       (mkDividend "f.csv" DIVIDEND (Some "abc")) = Ok no_rows
  /\ (forall r, In r (data lowercase_symbols) ->
                symbol_matches_ci lowercase_symbols "ABC" r)
  /\ (forall r, In r (data lowercase_symbols) ->
                symbol_kept lowercase_symbols "ABC" r = false).
Proof.
  cbv zeta. repeat split; try reflexivity.
  - intros r [<- | [<- | []]]; exists "abc"; split; reflexivity.
  - intros r [<- | [<- | []]]; reflexivity.
Qed.





(* ------------------------------------------------------------------ *)
(** ** Entering the context manager *)

Section EnterFacts.

Import Pandas.

Variable numeric_literal : string -> option Q.

Lemma require_columns_raises (df : DataFrame) (sym : option string) (e : exn) :
  require_columns df sym = Raise e -> exists k, e = KeyError k.
Proof.
  unfold require_columns, getitem.
  destruct (get_loc "Action" (columns df)); cbn [bind].
  - destruct sym; [| discriminate].
    destruct (get_loc "Symbol" (columns df)); cbn [bind]; [discriminate |].
    intros [= <-]. now eexists.
  - intros [= <-]. now eexists.
Qed.

(** On a parsed file the two methods return a frame or raise KeyError. *)
Lemma filter_parsed (fs : filesystem) (self : Dividend) (raw : DataFrame) :
  fs (file_path self) = Some (Parsed raw) ->
  forall e,
    (match action self with
     | DIVIDEND => _load_and_filter_dividends numeric_literal fs self
     | INVESTMENT => _load_and_filter_investments numeric_literal fs self
     end) = Raise e ->
    exists k, e = KeyError k.
Proof.
  intros Hfs e.
  assert (Hload : forall keep,
             bind (load numeric_literal fs (file_path self)) (fun loaded =>
             bind (require_columns loaded (symbol_given self)) (fun _ =>
             Ok (filter_rows loaded (keep loaded)))) = Raise e ->
             exists k, e = KeyError k).
  { intros keep. rewrite load_unfold, Hfs.
    destruct (get_loc "Amount ($)" (map PyStr.strip (columns raw))); cbn [bind].
    - match goal with
      | |- context [require_columns ?d ?s] =>
          destruct (require_columns d s) eqn:Hreq
      end; cbn [bind]; [discriminate |].
      intros [= <-]. eapply require_columns_raises, Hreq.
    - intros [= <-]. now eexists. }
  destruct (action self).
  - rewrite dividends_rowwise_eq.
    apply (Hload (fun loaded => dividend_keep loaded (symbol_given self))).
  - rewrite investments_rowwise_eq.
    apply (Hload (fun loaded => investment_keep loaded (symbol_given self))).
Qed.

Lemma filter_unparsed (fs : filesystem) (self : Dividend) (e : exn) :
  pd_read_csv fs (file_path self) = Raise e ->
  (match action self with
   | DIVIDEND => _load_and_filter_dividends numeric_literal fs self
   | INVESTMENT => _load_and_filter_investments numeric_literal fs self
   end) = Raise e.
Proof.
  intros H. unfold _load_and_filter_dividends, _load_and_filter_investments.
  rewrite H. now destruct (action self).
Qed.

(** The value [__enter__] returns is a frame. *)
Lemma enter_returns_frame (fs : filesystem) (self : Dividend)
      (v : option DataFrame) :
  __enter__ numeric_literal fs self = Ok v -> exists df, v = Some df.
Proof.
  unfold __enter__.
  destruct (negb (os_path_exists fs (file_path self))); [discriminate |].
  destruct (match action self with
            | DIVIDEND => _load_and_filter_dividends numeric_literal fs self
            | INVESTMENT => _load_and_filter_investments numeric_literal fs self
            end) as [df | []]; try discriminate.
  intros [= <-]. now exists df.
Qed.

(** When [__enter__] raises, only line 110 has printed and the exception
    leaves [dividend_csv_process]. *)
Lemma process_enter_raises (fs : filesystem) (report : string)
      (self : Dividend) (e : exn) :
  __enter__ numeric_literal fs self = Raise e ->
  dividend_csv_process numeric_literal fs report (action self) (file_path self) (symbol self)
  = ([banner report (action self) (file_path self)], Raise e).
Proof.
  intros H.
  unfold dividend_csv_process, with_Dividend.
  replace (mkDividend (file_path self) (action self) (symbol self)) with self
    by now destruct self.
  rewrite H. reflexivity.
Qed.

End EnterFacts.

Lemma enter_cases (numeric_literal : string -> option Q)
      (fs : filesystem) (self : Dividend) :
  match fs (file_path self) with
  | None =>
      __enter__ numeric_literal fs self
      = Raise (FileNotFoundError ("File not found: " ++ file_path self))
  | Some NoColumns | Some Malformed =>
      __enter__ numeric_literal fs self
      = Raise (RuntimeError ("Invalid CSV format in " ++ file_path self))
  | Some (Parsed raw) =>
      (exists df, __enter__ numeric_literal fs self = Ok (Some df))
      \/ (exists k, __enter__ numeric_literal fs self = Raise (KeyError k))
  end.
Proof.
  unfold __enter__, os_path_exists.
  destruct (fs (file_path self)) as [[| | raw] |] eqn:Hfs; cbn [negb].
  - rewrite (filter_unparsed numeric_literal fs self EmptyDataError);
      [reflexivity | unfold pd_read_csv; now rewrite Hfs].
  - rewrite (filter_unparsed numeric_literal fs self ParserError);
      [reflexivity | unfold pd_read_csv; now rewrite Hfs].
  - pose proof (filter_parsed numeric_literal fs self raw Hfs) as Hk.
    destruct (match action self with
              | DIVIDEND => _load_and_filter_dividends numeric_literal fs self
              | INVESTMENT => _load_and_filter_investments numeric_literal fs self
              end) as [df | e].
    + left. now exists df.
    + right. destruct (Hk e eq_refl) as [k ->]. now exists k.
  - reflexivity.
Qed.

(** C7.  [__enter__] raises FileNotFoundError iff the path does not exist;
    it raises RuntimeError ("Invalid CSV format") when the file exists and
    is empty or is not well-formed delimited text; and whenever it raises,
    the only line printed is the announcement of line 110, printed before
    the file is opened: no view runs, and the exception leaves
    [dividend_csv_process]. *)
Theorem load_failures (numeric_literal : string -> option Q)
        (fs : filesystem) (self : Dividend) :
  ((exists msg, __enter__ numeric_literal fs self = Raise (FileNotFoundError msg))
   <-> os_path_exists fs (file_path self) = false)
  /\ (fs (file_path self) = Some NoColumns \/ fs (file_path self) = Some Malformed ->
      __enter__ numeric_literal fs self
      = Raise (RuntimeError ("Invalid CSV format in " ++ file_path self)))
  /\ (forall report e,
        __enter__ numeric_literal fs self = Raise e ->
        dividend_csv_process numeric_literal fs report
          (action self) (file_path self) (symbol self)
        = ([banner report (action self) (file_path self)], Raise e)).
Proof.
  pose proof (enter_cases numeric_literal fs self) as Hc.
  repeat split.
  - intros [msg H]. unfold os_path_exists.
    destruct (fs (file_path self)) as [[| | raw] |]; trivial;
      try (rewrite Hc in H; discriminate).
    destruct Hc as [[df Hdf] | [k Hk]]; rewrite H in *; discriminate.
  - unfold os_path_exists. destruct (fs (file_path self)); [discriminate |].
    intros _. eexists. exact Hc.
  - intros [H | H]; rewrite H in Hc; exact Hc.
  - intros report e. apply process_enter_raises.
Qed.

Lemma load_failures_witness :
  __enter__ two_literals (one_file "f.csv" NoColumns)
    (mkDividend "f.csv" DIVIDEND None)
  = Raise (RuntimeError "Invalid CSV format in f.csv")
  /\ dividend_csv_process two_literals (one_file "f.csv" NoColumns)
       "sum" DIVIDEND "f.csv" None
     = ([banner "sum" DIVIDEND "f.csv"],
        Raise (RuntimeError "Invalid CSV format in f.csv")).
Proof.
  destruct (load_failures two_literals (one_file "f.csv" NoColumns)
              (mkDividend "f.csv" DIVIDEND None)) as [_ [Hfmt Hout]].
  split.
  - apply Hfmt. left. reflexivity.
  - apply (Hout "sum"). apply Hfmt. left. reflexivity.
Defined.

(** C8 (the code departs from it).  A file that parses but has no
    "Amount ($)" column makes [__enter__] raise KeyError, for both
    actions: the [except] clause of line 71 names EmptyDataError and
    ParserError only.  The KeyError leaves [dividend_csv_process], where a
    file that does not parse gives RuntimeError. *)
Theorem missing_column_raises_KeyError (numeric_literal : string -> option Q) :
  let fs := one_file "f.csv" (Parsed no_amount_column) in
  __enter__ numeric_literal fs (mkDividend "f.csv" DIVIDEND None)
  = Raise (KeyError "Amount ($)")
  /\ __enter__ numeric_literal fs (mkDividend "f.csv" INVESTMENT None)
     = Raise (KeyError "Amount ($)")
  /\ dividend_csv_process numeric_literal fs "sum" DIVIDEND "f.csv" None
     = ([banner "sum" DIVIDEND "f.csv"], Raise (KeyError "Amount ($)"))
  /\ __enter__ numeric_literal (one_file "f.csv" Malformed)
       (mkDividend "f.csv" DIVIDEND None)
     = Raise (RuntimeError "Invalid CSV format in f.csv").
Proof.
  cbv zeta. repeat split; reflexivity.
Qed.

(* ------------------------------------------------------------------ *)
(** ** The lines that print *)

Section TraceFacts.

Variable P : nat -> Prop.

Lemma prints_only_ret {A : Type} (a : A) : prints_only P (io_ret a).
Proof. constructor. Qed.

Lemma prints_only_lift {A : Type} (r : result A) : prints_only P (lift r).
Proof. constructor. Qed.

Lemma prints_only_print (line : nat) (what : shown) :
  P line -> prints_only P (print line what).
Proof.
  intros H. unfold prints_only. simpl. auto.
Qed.

Lemma prints_only_bind {A B : Type} (m : IO A) (k : A -> IO B) :
  prints_only P m -> (forall a, prints_only P (k a)) ->
  prints_only P (io_bind m k).
Proof.
  unfold prints_only, io_bind. intros Hm Hk.
  destruct m as [out [a | e]]; simpl in *.
  - specialize (Hk a). destruct (k a) as [out' r]. simpl in *.
    apply Forall_app. now split.
  - exact Hm.
Qed.

Lemma prints_only_for_each {A : Type} (l : list A) (body : A -> IO unit) :
  (forall x, prints_only P (body x)) -> prints_only P (for_each l body).
Proof.
  intros Hbody. induction l as [| x l IH]; simpl.
  - apply prints_only_ret.
  - apply prints_only_bind; auto.
Qed.

End TraceFacts.

Ltac trace_lines :=
  repeat first
    [ apply prints_only_bind; [| intros ? ]
    | apply prints_only_for_each; intros [? ?]
    | apply prints_only_for_each; intros ?
    | apply prints_only_lift
    | apply prints_only_ret
    | apply prints_only_print; discriminate ].

Lemma overridden_report_map :
  dict_set "symbols" Views.symbols_details
    (dict_set "details" Views.details (dict_set "sum" Views.sum report_map))
  = [ ("sum", Views.sum);
      ("symbols", Views.symbols_details);
      ("details", Views.details);
      ("print", report_print);
      ("all", report_all) ].
Proof. reflexivity. Qed.

(** No view prints from line 142. *)
Lemma views_skip_142 (report : string) (report_view : view) (divs : DataFrame) :
  dict_get report
    (dict_set "symbols" Views.symbols_details
       (dict_set "details" Views.details (dict_set "sum" Views.sum report_map)))
  = Some report_view ->
  prints_only (fun n => n <> 142%nat) (report_view divs).
Proof.
  rewrite overridden_report_map. cbn [dict_get].
  repeat match goal with
         | |- context [String.eqb ?a report] => destruct (String.eqb a report)
         end;
    intros [= <-].
  - unfold Views.sum. destruct (Pandas.empty divs); trace_lines.
  - unfold Views.symbols_details. trace_lines.
  - unfold Views.details. trace_lines.
  - unfold report_print. trace_lines.
  - unfold report_all. trace_lines.
Qed.

(** C9.  Whenever [__enter__] returns, it returns a frame and not [None],
    also when no row passed the filter; so for every file system, report,
    action, path and symbol, no entry of the trace of
    [dividend_csv_process] comes from line 142, the print of
    "No data available.". *)
Theorem enter_never_returns_None (numeric_literal : string -> option Q)
        (fs : filesystem) :
  (forall self v, __enter__ numeric_literal fs self = Ok v ->
                  exists df, v = Some df)
  /\ (forall report action path symbol p,
        In p (fst (dividend_csv_process numeric_literal fs report action path symbol)) ->
        lineno p <> 142%nat).
Proof.
  split.
  - intros self v. apply enter_returns_frame.
  - intros report action path symbol.
    apply Forall_forall.
    change (prints_only (fun n => n <> 142%nat)
              (dividend_csv_process numeric_literal fs report action path symbol)).
    unfold dividend_csv_process.
    apply prints_only_bind; [apply prints_only_print; discriminate | intros _].
    unfold with_Dividend.
    destruct (__enter__ numeric_literal fs (mkDividend path action symbol))
      as [v | e] eqn:Henter; [| constructor].
    destruct (enter_returns_frame _ _ _ _ Henter) as [df ->].
    match goal with
    | |- context [dict_get report ?m] => destruct (dict_get report m) as [rv |] eqn:Hrv
    end.
    + pose proof (views_skip_142 report rv df Hrv) as Hv.
      unfold prints_only in *. destruct (rv df) as [out [[] | e]]; exact Hv.
    + unfold prints_only. simpl. repeat constructor. discriminate.
Qed.

Lemma enter_never_returns_None_witness :
  __enter__ two_literals (one_file "f.csv" (Parsed scenario))
    (mkDividend "f.csv" DIVIDEND (Some "bbb"))
  = Ok (Some (mkFrame (columns scenario) []))
  /\ exists df, Some (mkFrame (columns scenario) []) = Some df.
Proof.
  split; [reflexivity |].
  apply (proj1 (enter_never_returns_None two_literals
                  (one_file "f.csv" (Parsed scenario)))
               (mkDividend "f.csv" DIVIDEND (Some "bbb"))).
  reflexivity.
Defined.

(* ------------------------------------------------------------------ *)
(** ** The totals view *)

Lemma sum_view_selected (numeric_literal : string -> option Q)
      (fs : filesystem) (action : Action) (path : string)
      (symbol : option string) (divs : DataFrame) :
  __enter__ numeric_literal fs (mkDividend path action symbol) = Ok (Some divs) ->
  dividend_csv_process numeric_literal fs "sum" action path symbol
  = io_bind (print 110 (content (banner "sum" action path)))
            (fun _ => match Views.sum divs with
                      | (out, Ok _) => (out, Ok tt)
                      | (out, Raise e) => (out, Raise e)
                      end).
Proof.
  intros H. unfold dividend_csv_process, with_Dividend. rewrite H.
  reflexivity.
Qed.

Lemma enter_ok_exists (numeric_literal : string -> option Q)
      (fs : filesystem) (self : Dividend) (v : option DataFrame) :
  __enter__ numeric_literal fs self = Ok v ->
  os_path_exists fs (file_path self) = true.
Proof.
  unfold __enter__. destruct (os_path_exists fs (file_path self)).
  - reflexivity.
  - discriminate.
Qed.

Lemma Action_of_value_value (a : Action) :
  Action_of_value (Action_value a) = Some a.
Proof. now destruct a. Qed.

(** C6.  When the frame [__enter__] returns has no row, the sum view
    prints the one notice of line 113 after the announcement of line 110
    and nothing else, [dividend_csv_process] returns normally, and [main]
    ends with status 0. *)
Theorem empty_set_prints_notice (numeric_literal : string -> option Q)
        (fs : filesystem) (action : Action) (path : string)
        (symbol : option string) (divs : DataFrame) :
  __enter__ numeric_literal fs (mkDividend path action symbol) = Ok (Some divs) ->
  data divs = [] ->
  dividend_csv_process numeric_literal fs "sum" action path symbol
  = ([banner "sum" action path; mkPrinted 113 (Plain "No dividends found.")],
     Ok tt)
  /\ main numeric_literal fs "sum" (Action_value action) path symbol
     = ([banner "sum" action path; mkPrinted 113 (Plain "No dividends found.")],
        0%Z).
Proof.
  intros Henter Hrows.
  assert (Hrun : dividend_csv_process numeric_literal fs "sum" action path symbol
                 = ([banner "sum" action path;
                     mkPrinted 113 (Plain "No dividends found.")], Ok tt)).
  { rewrite (sum_view_selected _ _ _ _ _ _ Henter).
    unfold Views.sum, Pandas.empty. rewrite Hrows.
    destruct (columns divs); reflexivity. }
  split; [exact Hrun |].
  unfold main. rewrite Action_of_value_value.
  change (existsb (String.eqb "sum") REPORTS) with true. cbn [negb].
  rewrite (enter_ok_exists _ _ _ _ Henter : os_path_exists fs path = true).
  cbn [negb]. now rewrite Hrun.
Qed.

Lemma empty_set_prints_notice_witness :
  dividend_csv_process two_literals (one_file "f.csv" (Parsed scenario))
    "sum" DIVIDEND "f.csv" (Some "bbb")
  = ([banner "sum" DIVIDEND "f.csv"; mkPrinted 113 (Plain "No dividends found.")],
     Ok tt)
  /\ main two_literals (one_file "f.csv" (Parsed scenario))
       "sum" "dividend" "f.csv" (Some "bbb")
     = ([banner "sum" DIVIDEND "f.csv"; mkPrinted 113 (Plain "No dividends found.")],
        0%Z).
Proof.
  apply (empty_set_prints_notice two_literals (one_file "f.csv" (Parsed scenario))
           DIVIDEND "f.csv" (Some "bbb") (mkFrame (columns scenario) [])).
  - reflexivity.
  - reflexivity.
Defined.

(** C4.  On a file with the four rows of the scenario, whatever its path,
    the dividend sum report prints, after the announcement of line 110,
    the one line "Total Amount for AAA: $8.00", and the investment sum
    report the one line "Total Amount for BBB: $-10.00". *)
Theorem scenario_totals (numeric_literal : string -> option Q) (path : string) :
  let fs := one_file path (Parsed scenario) in
  dividend_csv_process numeric_literal fs "sum" DIVIDEND path None
  = ([banner "sum" DIVIDEND path;
      mkPrinted 119 (Plain "Total Amount for AAA: $8.00")], Ok tt)
  /\ dividend_csv_process numeric_literal fs "sum" INVESTMENT path None
     = ([banner "sum" INVESTMENT path;
         mkPrinted 119 (Plain "Total Amount for BBB: $-10.00")], Ok tt).
Proof.
  cbv zeta.
  assert (Hfs : one_file path (Parsed scenario) path = Some (Parsed scenario)).
  { unfold one_file. now rewrite String.eqb_refl. }
  split.
  - rewrite (sum_view_selected _ _ _ _ _
               (mkFrame (columns scenario) (firstn 2 (data scenario)))).
    + reflexivity.
    + unfold __enter__, os_path_exists, _load_and_filter_dividends, pd_read_csv.
      cbn [file_path action]. rewrite Hfs. reflexivity.
  - rewrite (sum_view_selected _ _ _ _ _
               (mkFrame (columns scenario) (skipn 3 (data scenario)))).
    + reflexivity.
    + unfold __enter__, os_path_exists, _load_and_filter_investments, pd_read_csv.
      cbn [file_path action]. rewrite Hfs. reflexivity.
Qed.

Section TotalsFacts.

Import Pandas.










Lemma for_each_totals (cols : list string) (j : nat)
      (gs : list (string * list row)) :
  get_loc "Amount ($)" cols = Some j ->
  for_each (map (fun kg => (fst kg, mkFrame cols (snd kg))) gs)
    (fun sg =>
       let (sym, group) := sg : string * DataFrame in
       io_bind (lift (getitem group "Amount ($)")) (fun amount =>
       let total_amount := series_sum amount in
       print 119 (Plain ("Total Amount for " ++ sym ++ ": $"
                         ++ Format.fixed2 total_amount))))
  = (map total_line
       (map (fun kg => (fst kg, series_sum (map (at_pos j) (snd kg)))) gs),
     Ok tt).
Proof.
  intros Hj.
  match goal with
  | |- for_each _ ?b = _ => set (body := b)
  end.
  induction gs as [| [k rs] gs IH].
  - reflexivity.
  - change (io_bind (body (k, mkFrame cols rs))
              (fun _ => for_each
                          (map (fun kg => (fst kg, mkFrame cols (snd kg))) gs)
                          body)
            = (total_line (k, series_sum (map (at_pos j) rs))
                 :: map total_line
                      (map (fun kg => (fst kg, series_sum (map (at_pos j) (snd kg))))
                           gs),
               Ok tt)).
    rewrite IH. unfold body, getitem. cbn [columns data]. rewrite Hj.
    reflexivity.
Qed.


End TotalsFacts.




(* ------------------------------------------------------------------ *)
(** ** Amounts that are not numbers *)




(* ------------------------------------------------------------------ *)
(** ** More on entering: the result, row by row *)

Lemma category_keep_iff (a : Action) (df : DataFrame) (sym : option string)
      (r : row) :
  category_keep a df sym r = true
  <-> category_row a df r /\ symbol_condition df sym r.
Proof.
  assert (Hs : symbol_keep df sym r = true <-> symbol_condition df sym r).
  { destruct sym as [s |]; simpl; [apply symbol_kept_iff | tauto]. }
  destruct a; simpl.
  - rewrite dividend_keep_iff, Hs. tauto.
  - rewrite investment_keep_iff, Hs. tauto.
Qed.

Lemma load_ok_exists (numeric_literal : string -> option Q)
      (fs : filesystem) (path : string) (loaded : DataFrame) :
  load numeric_literal fs path = Ok loaded -> os_path_exists fs path = true.
Proof.
  intros H. destruct (load_inv _ _ _ _ H) as [raw [i [Hfs _]]].
  unfold os_path_exists. now rewrite Hfs.
Qed.

(** Once the file has loaded, [__enter__] checks the columns it reads and
    returns the rows that pass the row test. *)
Lemma enter_rowwise (numeric_literal : string -> option Q)
      (fs : filesystem) (self : Dividend) (loaded : DataFrame) :
  load numeric_literal fs (file_path self) = Ok loaded ->
  __enter__ numeric_literal fs self
  = match require_columns loaded (symbol_given self) with
    | Ok _ => Ok (Some (filter_rows loaded
                          (category_keep (action self) loaded (symbol_given self))))
    | Raise e => Raise e
    end.
Proof.
  intros Hload. unfold __enter__.
  rewrite (load_ok_exists _ _ _ _ Hload). cbn [negb].
  rewrite dividends_rowwise_eq, investments_rowwise_eq.
  unfold dividends_rowwise, investments_rowwise. rewrite Hload. cbn [bind].
  destruct (require_columns loaded (symbol_given self)) as [[] | e] eqn:Hreq;
    cbn [bind].
  - now destruct (action self).
  - destruct (require_columns_raises _ _ _ Hreq) as [k ->].
    now destruct (action self).
Qed.

Lemma require_columns_ok (df : DataFrame) (sym : option string) :
  In "Action" (columns df) ->
  (sym = None \/ In "Symbol" (columns df)) ->
  require_columns df sym = Ok tt.
Proof.
  intros Ha Hs. apply get_loc_In in Ha. destruct Ha as [a Ha].
  unfold require_columns. rewrite (getitem_at _ _ _ Ha). cbn [bind].
  destruct sym as [s |]; [| reflexivity].
  destruct Hs as [Hs | Hs]; [discriminate |].
  apply get_loc_In in Hs. destruct Hs as [k Hk].
  now rewrite (getitem_at _ _ _ Hk).
Qed.



Lemma equal_ci_upper (s t : string) :
  PyStr.equal_ci s t -> PyStr.upper s = PyStr.upper t.
Proof.
  unfold PyStr.equal_ci. revert t.
  induction s as [| c s IH]; intros [| d t]; simpl; try discriminate.
  - reflexivity.
  - intros [= Hc Hs]. f_equal; [| now apply IH].
    rewrite <- (upper_lower_char c), Hc. apply upper_lower_char.
Qed.

Lemma equal_ci_truthy (s t : string) :
  PyStr.equal_ci s t -> PyStr.truthy s = PyStr.truthy t.
Proof.
  unfold PyStr.equal_ci. destruct s, t; simpl; try discriminate; reflexivity.
Qed.

(** [__enter__] reads the symbol through [if self.symbol:] and
    [self.symbol.upper()] only. *)
Lemma enter_symbol_upper (numeric_literal : string -> option Q)
      (fs : filesystem) (path : string) (a : Action) (sy sy' : option string) :
  option_map PyStr.upper (symbol_given (mkDividend path a sy))
  = option_map PyStr.upper (symbol_given (mkDividend path a sy')) ->
  __enter__ numeric_literal fs (mkDividend path a sy)
  = __enter__ numeric_literal fs (mkDividend path a sy').
Proof.
  unfold __enter__, _load_and_filter_dividends, _load_and_filter_investments.
  cbn [file_path action]. intros H.
  destruct (symbol_given (mkDividend path a sy)) as [s |],
           (symbol_given (mkDividend path a sy')) as [s' |];
    simpl in H; try discriminate; [| reflexivity].
  injection H as H. now rewrite H.
Qed.

(** X2.  The case of the letters of the symbol filter plays no part: two
    filters that are equal up to case give the same result or the same
    exception, for every file and either action.  An empty filter is no
    filter. *)
Theorem symbol_filter_argument_case (numeric_literal : string -> option Q)
        (fs : filesystem) (path : string) (a : Action) :
  (forall s s', PyStr.equal_ci s s' ->
                __enter__ numeric_literal fs (mkDividend path a (Some s))
                = __enter__ numeric_literal fs (mkDividend path a (Some s')))
  /\ __enter__ numeric_literal fs (mkDividend path a (Some ""))
     = __enter__ numeric_literal fs (mkDividend path a None).
Proof.
  split.
  - intros s s' Heq. apply enter_symbol_upper.
    unfold symbol_given. cbn [symbol].
    rewrite (equal_ci_truthy _ _ Heq).
    destruct (PyStr.truthy s'); [| reflexivity].
    simpl. now rewrite (equal_ci_upper _ _ Heq).
  - now apply enter_symbol_upper.
Qed.

Lemma symbol_filter_argument_case_witness :
  __enter__ two_literals (one_file "f.csv" (Parsed scenario))
    (mkDividend "f.csv" DIVIDEND (Some "aAa"))
  = __enter__ two_literals (one_file "f.csv" (Parsed scenario))
      (mkDividend "f.csv" DIVIDEND (Some "AAA")).
Proof.
  apply (proj1 (symbol_filter_argument_case two_literals
                  (one_file "f.csv" (Parsed scenario)) "f.csv" DIVIDEND)).
  reflexivity.
Defined.





(* ------------------------------------------------------------------ *)
(** ** More on loading: header names and the other columns *)

Section StripFacts.

Import PyStr.

Lemma lstrip_head (s : string) :
  lstrip s = "" \/ exists c t, lstrip s = String c t /\ is_space c = false.
Proof.
  induction s as [| c s IH]; simpl.
  - now left.
  - destruct (is_space c) eqn:Hc; [exact IH |].
    right. now exists c, s.
Qed.

Lemma rstrip_head (c : ascii) (t : string) :
  is_space c = false -> exists t', rstrip (String c t) = String c t'.
Proof.
  intros Hc. simpl. rewrite Hc. destruct (rstrip t) as [| d u]; eauto.
Qed.

Lemma rstrip_idem (s : string) : rstrip (rstrip s) = rstrip s.
Proof.
  induction s as [| c s IH]; simpl.
  - reflexivity.
  - destruct (rstrip s) as [| d u] eqn:Hs.
    + destruct (is_space c) eqn:Hc; simpl; [reflexivity | now rewrite Hc].
    + change (rstrip (String c (String d u)) = String c (String d u)).
      cbn [rstrip] in *. now rewrite IH.
Qed.

(** [strip] leaves a stripped text as it is. *)
Lemma strip_idem (s : string) : strip (strip s) = strip s.
Proof.
  unfold strip. destruct (lstrip_head s) as [Hl | [c [t [Hl Hc]]]]; rewrite Hl.
  - reflexivity.
  - destruct (rstrip_head c t Hc) as [t' Ht'].
    rewrite Ht'. cbn [lstrip]. rewrite Hc, <- Ht'. apply rstrip_idem.
Qed.

End StripFacts.

Lemma strip_columns_idem (df : DataFrame) :
  Pandas.strip_columns (Pandas.strip_columns df) = Pandas.strip_columns df.
Proof.
  unfold Pandas.strip_columns. cbn [columns data]. f_equal.
  rewrite map_map. apply map_ext. intros s. apply strip_idem.
Qed.

(** X5.  White space around the header names plays no part: a file and the
    same file with its header names stripped give the same result or the
    same exception. *)
Theorem header_whitespace_is_ignored (numeric_literal : string -> option Q)
        (fs fs' : filesystem) (self : Dividend) (raw : DataFrame) :
  fs (file_path self) = Some (Parsed raw) ->
  fs' (file_path self) = Some (Parsed (Pandas.strip_columns raw)) ->
  __enter__ numeric_literal fs self = __enter__ numeric_literal fs' self.
Proof.
  intros Hfs Hfs'.
  unfold __enter__, os_path_exists, _load_and_filter_dividends,
    _load_and_filter_investments, pd_read_csv.
  rewrite Hfs, Hfs'. cbn [negb bind]. rewrite strip_columns_idem. reflexivity.
Qed.

Lemma header_whitespace_is_ignored_witness :
  __enter__ two_literals (one_file "f.csv" (Parsed padded_header))
    (mkDividend "f.csv" DIVIDEND None)
  = __enter__ two_literals
      (one_file "f.csv" (Parsed (Pandas.strip_columns padded_header)))
      (mkDividend "f.csv" DIVIDEND None).
Proof.
  apply (header_whitespace_is_ignored two_literals
           (one_file "f.csv" (Parsed padded_header))
           (one_file "f.csv" (Parsed (Pandas.strip_columns padded_header)))
           (mkDividend "f.csv" DIVIDEND None) padded_header).
  - reflexivity.
  - reflexivity.
Defined.

Lemma get_loc_inj (a b : string) (cols : list string) (i : nat) :
  Pandas.get_loc a cols = Some i -> Pandas.get_loc b cols = Some i -> a = b.
Proof.
  revert i; induction cols as [| c cols IH]; intros i; simpl.
  - discriminate.
  - destruct (String.eqb_spec c a) as [Ha | Ha],
             (String.eqb_spec c b) as [Hb | Hb].
    + congruence.
    + intros [= <-]. destruct (Pandas.get_loc b cols); discriminate.
    + intros H [= <-]. destruct (Pandas.get_loc a cols); discriminate.
    + destruct (Pandas.get_loc a cols) as [j |] eqn:Hj; [| discriminate].
      destruct (Pandas.get_loc b cols) as [k |] eqn:Hk; [| discriminate].
      simpl. intros [= <-] [= ->]. now apply (IH j).
Qed.

(** X6.  Loading keeps every row of the file, in order, and changes the
    amount column only: the amount of each row is coerced, and the cell
    under any other header name is the cell of the file. *)
Theorem load_changes_amount_only (numeric_literal : string -> option Q)
        (fs : filesystem) (path : string) (raw loaded : DataFrame) :
  fs path = Some (Parsed raw) ->
  load numeric_literal fs path = Ok loaded ->
  exists i,
    columns loaded = map PyStr.strip (columns raw)
    /\ data loaded = map (coerce_row numeric_literal i) (data raw)
    /\ (forall r,
          field loaded "Amount ($)" (coerce_row numeric_literal i r)
          = coerce numeric_literal
              (field (Pandas.strip_columns raw) "Amount ($)" r))
    /\ (forall r name,
          name <> "Amount ($)" ->
          field loaded name (coerce_row numeric_literal i r)
          = field (Pandas.strip_columns raw) name r).
Proof.
  intros Hfs Hload.
  destruct (load_inv _ _ _ _ Hload) as [raw' [i [Hfs' [Hi [Hcols Hdata]]]]].
  assert (raw' = raw) by congruence. subst raw'.
  exists i. repeat split; trivial.
  - intros r. unfold field. cbn [Pandas.strip_columns columns].
    rewrite <- Hcols, Hi. unfold coerce_row. apply at_pos_set_pos.
  - intros r name Hne. unfold field. cbn [Pandas.strip_columns columns].
    rewrite <- Hcols.
    destruct (Pandas.get_loc name (columns loaded)) as [k |] eqn:Hk;
      [| reflexivity].
    unfold coerce_row. apply at_pos_set_pos_other.
    intros ->. apply Hne. symmetry. exact (get_loc_inj _ _ _ _ Hi Hk).
Qed.

Lemma load_changes_amount_only_witness :
  exists i loaded,
    load two_literals (one_file "f.csv" (Parsed text_amounts)) "f.csv" = Ok loaded
    /\ data loaded = map (coerce_row two_literals i) (data text_amounts)
    /\ forall r name,
         name <> "Amount ($)" ->
         field loaded name (coerce_row two_literals i r)
         = field (Pandas.strip_columns text_amounts) name r.
Proof.
  destruct (load_changes_amount_only two_literals
              (one_file "f.csv" (Parsed text_amounts)) "f.csv" text_amounts
              (mkFrame (columns text_amounts)
                       (map (coerce_row two_literals 3) (data text_amounts)))
              eq_refl eq_refl)
    as [i [_ [Hdata [_ Hother]]]].
  exists i. eexists. split; [reflexivity |]. split; [exact Hdata | exact Hother].
Defined.

(** What [__enter__] returns is a filter of what loading gives. *)
Lemma enter_ok_inv (numeric_literal : string -> option Q)
      (fs : filesystem) (self : Dividend) (divs : DataFrame) :
  __enter__ numeric_literal fs self = Ok (Some divs) ->
  exists loaded,
    load numeric_literal fs (file_path self) = Ok loaded
    /\ divs = filter_rows loaded
                (category_keep (action self) loaded (symbol_given self)).
Proof.
  intros H.
  destruct (load numeric_literal fs (file_path self)) as [loaded | e] eqn:Hload.
  - exists loaded. split; [reflexivity |].
    rewrite (enter_rowwise _ _ _ _ Hload) in H.
    destruct (require_columns loaded (symbol_given self)); congruence.
  - exfalso. unfold __enter__ in H.
    destruct (negb (os_path_exists fs (file_path self))); [discriminate |].
    rewrite dividends_rowwise_eq, investments_rowwise_eq in H.
    unfold dividends_rowwise, investments_rowwise in H.
    rewrite Hload in H. cbn [bind] in H.
    destruct (action self), e; discriminate.
Qed.

(** X7.  In every frame [__enter__] returns, the amount of each row is a
    number or missing, never a text; for the dividend action it is a
    number that is not negative. *)
Theorem returned_amounts (numeric_literal : string -> option Q)
        (fs : filesystem) (self : Dividend) (divs : DataFrame) (r : row) :
  __enter__ numeric_literal fs self = Ok (Some divs) ->
  In r (data divs) ->
  (field divs "Amount ($)" r = NA
   \/ exists q, field divs "Amount ($)" r = Number q)
  /\ (action self = DIVIDEND ->
      exists q, field divs "Amount ($)" r = Number q /\ 0 <= q).
Proof.
  intros Henter Hin.
  destruct (enter_ok_inv _ _ _ _ Henter) as [loaded [Hload ->]].
  cbn [filter_rows data] in Hin. apply filter_In in Hin.
  destruct Hin as [Hin Hkeep].
  change (field (filter_rows loaded
                   (category_keep (action self) loaded (symbol_given self)))
                "Amount ($)" r)
    with (field loaded "Amount ($)" r).
  split.
  - exact (loaded_amount_numeric_or_missing _ _ _ _ _ Hload Hin).
  - intros Ha. rewrite Ha in Hkeep. apply category_keep_iff in Hkeep.
    destruct Hkeep as [[_ Hq] _]. exact Hq.
Qed.

Lemma returned_amounts_witness :
  exists q,
    field scenario "Amount ($)"
      [Text "2025-01-02"; Text "DIVIDEND RECEIVED"; Text "AAA"; Number 3]
    = Number q /\ 0 <= q.
Proof.
  apply (returned_amounts two_literals (one_file "f.csv" (Parsed scenario))
           (mkDividend "f.csv" DIVIDEND None)
           (mkFrame (columns scenario) (firstn 2 (data scenario)))
           [Text "2025-01-02"; Text "DIVIDEND RECEIVED"; Text "AAA"; Number 3]).
  - reflexivity.
  - simpl. tauto.
  - reflexivity.
Defined.

(* ------------------------------------------------------------------ *)
(** ** Grouping by symbol *)

Section OrderFacts.

Lemma text_compare_refl (a : string) : String.compare a a = Eq.
Proof.
  pose proof (String.compare_antisym a a) as H.
  destruct (String.compare a a); simpl in H; congruence.
Qed.

Lemma text_lt_irrefl (a : string) : ~ text_lt a a.
Proof.
  unfold text_lt. rewrite text_compare_refl. discriminate.
Qed.

Lemma char_lt_trans (a b c : ascii) :
  Ascii.compare a b = Lt -> Ascii.compare b c = Lt -> Ascii.compare a c = Lt.
Proof.
  unfold Ascii.compare. rewrite !N.compare_lt_iff. apply N.lt_trans.
Qed.

Lemma text_lt_trans (a b c : string) : text_lt a b -> text_lt b c -> text_lt a c.
Proof.
  unfold text_lt. revert b c.
  induction a as [| x a IH]; intros [| y b] [| z c]; simpl; try discriminate;
    try reflexivity.
  destruct (Ascii.compare x y) eqn:Hxy; try discriminate.
  - apply Ascii.compare_eq_iff in Hxy. subst y.
    destruct (Ascii.compare x z); try discriminate; [apply IH | reflexivity].
  - intros _. destruct (Ascii.compare y z) eqn:Hyz; try discriminate.
    + apply Ascii.compare_eq_iff in Hyz. subst z. now rewrite Hxy.
    + intros _. now rewrite (char_lt_trans _ _ _ Hxy Hyz).
Qed.

Lemma text_gt_lt (a b : string) : String.compare a b = Gt -> text_lt b a.
Proof.
  unfold text_lt. rewrite (String.compare_antisym a b).
  destruct (String.compare b a); simpl; congruence.
Qed.

End OrderFacts.

Section GroupFacts.

Import Pandas.

Variable i : nat.

Lemma insert_group_keys (k : string) (r : row) (gs : list (string * list row))
      (k' : string) :
  In k' (map fst (insert_group k r gs)) <-> k' = k \/ In k' (map fst gs).
Proof.
  induction gs as [| [k0 rs] gs IH]; cbn [insert_group].
  - simpl. intuition congruence.
  - destruct (String.compare k k0) eqn:Hc; cbn [map fst In].
    + apply String.compare_eq_iff in Hc. subst k0. intuition congruence.
    + intuition congruence.
    + rewrite IH. intuition congruence.
Qed.

Lemma insert_group_sorted (k : string) (r : row) (gs : list (string * list row)) :
  StronglySorted text_lt (map fst gs) ->
  StronglySorted text_lt (map fst (insert_group k r gs)).
Proof.
  induction gs as [| [k0 rs] gs IH]; cbn [insert_group]; intros Hs.
  - simpl. repeat constructor.
  - cbn [map fst] in Hs. inversion Hs as [| ? ? Hs' Hall]; subst.
    destruct (String.compare k k0) eqn:Hc; cbn [map fst].
    + now constructor.
    + constructor; [now constructor |].
      constructor; [exact Hc |].
      eapply Forall_impl; [| exact Hall].
      intros a Ha. eapply text_lt_trans; [exact Hc | exact Ha].
    + constructor; [now apply IH |].
      apply Forall_forall. intros a Ha.
      apply insert_group_keys in Ha. destruct Ha as [-> | Ha].
      * now apply text_gt_lt.
      * rewrite Forall_forall in Hall. now apply Hall.
Qed.

Lemma sorted_head_not_in (k : string) (ks : list string) :
  Forall (text_lt k) ks -> ~ In k ks.
Proof.
  rewrite Forall_forall. intros H Hin. exact (text_lt_irrefl k (H k Hin)).
Qed.

(** The groups after a row with key [k] has joined. *)
Lemma insert_group_content (k : string) (r : row) (gs : list (string * list row))
      (k' : string) (rs' : list row) :
  StronglySorted text_lt (map fst gs) ->
  In (k', rs') (insert_group k r gs) ->
  (k' <> k /\ In (k', rs') gs)
  \/ (k' = k
      /\ ((exists old, In (k, old) gs /\ rs' = old ++ [r])%list
          \/ (~ In k (map fst gs) /\ rs' = [r]))).
Proof.
  induction gs as [| [k0 rs] gs IH]; cbn [insert_group]; intros Hs Hin.
  - destruct Hin as [[= <- <-] | []]. right. split; [reflexivity |].
    right. split; [intros [] | reflexivity].
  - cbn [map fst] in Hs. inversion Hs as [| ? ? Hs' Hall]; subst.
    pose proof (sorted_head_not_in _ _ Hall) as Hk0.
    destruct (String.compare k k0) eqn:Hc.
    + apply String.compare_eq_iff in Hc. subst k0.
      destruct Hin as [[= <- <-] | Hin].
      * right. split; [reflexivity |]. left. exists rs. split; [now left | reflexivity].
      * left. split; [| now right].
        intros ->. apply Hk0. apply in_map_iff. now exists (k, rs').
    + assert (Hnot : ~ In k (map fst ((k0, rs) :: gs))).
      { cbn [map fst]. intros [-> | Hk].
        - exact (text_lt_irrefl _ Hc).
        - rewrite Forall_forall in Hall.
          exact (text_lt_irrefl _ (text_lt_trans _ _ _ Hc (Hall _ Hk))). }
      destruct Hin as [[= <- <-] | Hin].
      * right. split; [reflexivity |]. right. split; [exact Hnot | reflexivity].
      * left. split; [| exact Hin].
        intros ->. apply Hnot. apply in_map_iff. now exists (k, rs').
    + assert (Hne : k0 <> k).
      { intros ->. rewrite text_compare_refl in Hc. discriminate. }
      destruct Hin as [[= <- <-] | Hin].
      * left. split; [exact Hne | now left].
      * destruct (IH Hs' Hin) as [[Hk' Hold] | [-> [[old [Hold ->]] | [Hnot ->]]]].
        -- left. split; [exact Hk' | now right].
        -- right. split; [reflexivity |]. left. exists old.
           split; [now right | reflexivity].
        -- right. split; [reflexivity |]. right. split; [| reflexivity].
           cbn [map fst]. intros [H | H]; [now apply Hne | now apply Hnot].
Qed.

Lemma rows_with_key_snoc (k : string) (rows : list row) (r : row) :
  rows_with_key i k (rows ++ [r])
  = (rows_with_key i k rows
     ++ match at_pos i r with
        | Text t => if String.eqb t k then [r] else []
        | _ => []
        end)%list.
Proof.
  unfold rows_with_key. rewrite filter_app. f_equal. simpl.
  destruct (at_pos i r) as [| t |]; reflexivity.
Qed.

Lemma rows_with_key_none (k : string) (rows : list row) :
  (forall r, In r rows -> at_pos i r <> Text k) -> rows_with_key i k rows = [].
Proof.
  intros H. unfold rows_with_key.
  induction rows as [| r rows IH]; simpl; [reflexivity |].
  destruct (at_pos i r) as [| t |] eqn:Ht; try (apply IH; intros; apply H; now right).
  destruct (String.eqb_spec t k) as [-> | Hne].
  - exfalso. apply (H r); [now left | exact Ht].
  - apply IH. intros. apply H. now right.
Qed.

Lemma group_rows_snoc (rows : list row) (r : row) :
  group_rows i (rows ++ [r])
  = match at_pos i r with
    | Text k => insert_group k r (group_rows i rows)
    | _ => group_rows i rows
    end.
Proof.
  unfold group_rows. now rewrite fold_left_app.
Qed.

(** The groups of a list of rows: the keys increase strictly; the group of
    a key holds the rows with that key, in order, and is not empty; every
    key of a row has a group. *)
Lemma group_rows_spec (rows : list row) :
  StronglySorted text_lt (map fst (group_rows i rows))
  /\ (forall k rs, In (k, rs) (group_rows i rows) ->
                   rs = rows_with_key i k rows /\ rs <> [])
  /\ (forall r k, In r rows -> at_pos i r = Text k ->
                  In k (map fst (group_rows i rows))).
Proof.
  induction rows as [| r rows [Hsorted [Hgroups Hkeys]]] using rev_ind.
  - split; [constructor | split]; [intros k rs [] | intros r k []].
  - rewrite group_rows_snoc.
    destruct (at_pos i r) as [| k |] eqn:Hr.
    + split; [exact Hsorted | split].
      * intros k rs Hin. rewrite rows_with_key_snoc, Hr, app_nil_r. now apply Hgroups.
      * intros r' k Hin Hk. apply in_app_or in Hin.
        destruct Hin as [Hin | [<- | []]]; [now apply (Hkeys r') | congruence].
    + split; [now apply insert_group_sorted | split].
      * intros k' rs' Hin. rewrite rows_with_key_snoc, Hr.
        destruct (insert_group_content _ _ _ _ _ Hsorted Hin)
          as [[Hne Hold] | [-> [[old [Hold ->]] | [Hnot ->]]]].
        -- destruct (String.eqb_spec k k') as [-> | _]; [congruence |].
           rewrite app_nil_r. now apply Hgroups.
        -- rewrite String.eqb_refl. destruct (Hgroups _ _ Hold) as [<- _].
           split; [reflexivity |]. now destruct old.
        -- rewrite String.eqb_refl. rewrite rows_with_key_none.
           ++ split; [reflexivity | discriminate].
           ++ intros r' Hr' Hk. apply Hnot. now apply (Hkeys r').
      * intros r' k' Hin Hk. apply insert_group_keys.
        apply in_app_or in Hin. destruct Hin as [Hin | [<- | []]].
        -- right. now apply (Hkeys r').
        -- left. congruence.
    + split; [exact Hsorted | split].
      * intros k rs Hin. rewrite rows_with_key_snoc, Hr, app_nil_r. now apply Hgroups.
      * intros r' k Hin Hk. apply in_app_or in Hin.
        destruct Hin as [Hin | [<- | []]]; [now apply (Hkeys r') | congruence].
Qed.

End GroupFacts.

(* ------------------------------------------------------------------ *)
(** ** The views, line by line *)

Lemma rows_of_symbol_at (divs : DataFrame) (i : nat) (k : string) :
  Pandas.get_loc "Symbol" (columns divs) = Some i ->
  rows_of_symbol divs k = rows_with_key i k (data divs).
Proof.
  intros Hi. unfold rows_of_symbol, rows_with_key.
  apply filter_ext. intros r. now rewrite (field_at _ _ _ r Hi).
Qed.

Lemma in_rows_with_key (i : nat) (k : string) (rows : list row) (r : row) :
  In r (rows_with_key i k rows) <-> In r rows /\ Pandas.at_pos i r = Text k.
Proof.
  unfold rows_with_key. rewrite filter_In.
  destruct (Pandas.at_pos i r) as [| t |].
  - intuition discriminate.
  - rewrite String.eqb_eq. intuition congruence.
  - intuition discriminate.
Qed.

(** A symbol has a group iff some row carries it. *)
Lemma group_keys_iff (divs : DataFrame) (i : nat) (k : string) :
  Pandas.get_loc "Symbol" (columns divs) = Some i ->
  In k (map fst (Pandas.group_rows i (data divs)))
  <-> exists r, In r (data divs) /\ field divs "Symbol" r = Text k.
Proof.
  intros Hi.
  destruct (group_rows_spec i (data divs)) as [_ [Hgroups Hkeys]].
  split.
  - intros Hin. apply in_map_iff in Hin. destruct Hin as [[k' rs] [Hk Hin]].
    simpl in Hk. subst k'. destruct (Hgroups _ _ Hin) as [-> Hne].
    destruct (rows_with_key i k (data divs)) as [| r rs'] eqn:Hrows; [congruence |].
    assert (Hr : In r (rows_with_key i k (data divs))) by (rewrite Hrows; now left).
    apply in_rows_with_key in Hr. exists r.
    now rewrite (field_at _ _ _ r Hi).
  - intros [r [Hin Hr]]. rewrite (field_at _ _ _ r Hi) in Hr.
    now apply (Hkeys r).
Qed.



Lemma getitems_shown (cols : list string) (rows : list row) :
  In "Run Date" cols -> In "Symbol" cols -> In "Amount ($)" cols ->
  Pandas.getitems (mkFrame cols rows) shown_columns
  = Ok (shown_rows (mkFrame cols rows) rows).
Proof.
  intros Hd Hs Ha.
  apply get_loc_In in Hd. destruct Hd as [a Hd].
  apply get_loc_In in Hs. destruct Hs as [b Hs].
  apply get_loc_In in Ha. destruct Ha as [c Ha].
  unfold Pandas.getitems, shown_rows, shown_columns, field.
  cbn [Pandas.locs columns data map]. rewrite Hd, Hs, Ha. reflexivity.
Qed.

Lemma getitems_missing (df : DataFrame) :
  ~ (In "Run Date" (columns df) /\ In "Symbol" (columns df)
     /\ In "Amount ($)" (columns df)) ->
  exists k, Pandas.getitems df shown_columns = Raise (KeyError k).
Proof.
  intros Hn. unfold Pandas.getitems, shown_columns. cbn [Pandas.locs].
  destruct (Pandas.get_loc "Run Date" (columns df)) as [a |] eqn:Hd; [| now eexists].
  destruct (Pandas.get_loc "Symbol" (columns df)) as [b |] eqn:Hs; [| now eexists].
  destruct (Pandas.get_loc "Amount ($)" (columns df)) as [c |] eqn:Ha; [| now eexists].
  exfalso. apply Hn. repeat split; apply get_loc_In; eauto.
Qed.



Lemma for_each_print {A : Type} (line : nat) (f : A -> shown) (l : list A) :
  for_each l (fun x => print line (f x))
  = (map (fun x => mkPrinted line (f x)) l, Ok tt).
Proof.
  induction l as [| x l IH]; cbn [for_each map]; [reflexivity |].
  rewrite IH. reflexivity.
Qed.







(** X11.  A view that misses a column raises KeyError after what it has
    printed so far: without a symbol column the symbols view has printed
    its heading and the details view nothing; with symbols but without a
    date column the details view has printed the heading of its first group
    and nothing more. *)
Theorem views_raise_after_printing (divs : DataFrame) :
  (~ In "Symbol" (columns divs) ->
   Views.symbols_details divs
   = ([mkPrinted 123 (Plain "Available Symbols:")], Raise (KeyError "Symbol"))
   /\ Views.details divs = ([], Raise (KeyError "Symbol")))
  /\ (In "Symbol" (columns divs) -> ~ In "Run Date" (columns divs) ->
      forall r k, In r (data divs) -> field divs "Symbol" r = Text k ->
      exists k0 e,
        Views.details divs
        = ([mkPrinted 131 (Plain (String "010" "Symbol: " ++ k0))], Raise e)
        /\ is_KeyError e).
Proof.
  split.
  - intros Hn.
    assert (Hi : Pandas.get_loc "Symbol" (columns divs) = None).
    { destruct (Pandas.get_loc "Symbol" (columns divs)) as [i |] eqn:Hi; trivial.
      exfalso. apply Hn. apply get_loc_In. now exists i. }
    unfold Views.symbols_details, Views.details, Pandas.getitem, Pandas.groupby.
    rewrite Hi. split; reflexivity.
  - intros Hs Hn r k Hin Hr.
    apply get_loc_In in Hs. destruct Hs as [i Hi].
    assert (Hk : In k (map fst (Pandas.group_rows i (data divs)))).
    { apply (group_keys_iff divs i k Hi). now exists r. }
    destruct (Pandas.group_rows i (data divs)) as [| [k0 rs] gs] eqn:Hgs;
      [destruct Hk |].
    destruct (getitems_missing (mkFrame (columns divs) rs)) as [key Hkey].
    { cbn [columns]. tauto. }
    exists k0, (KeyError key). split; [| now exists key].
    unfold Views.details, Pandas.groupby. rewrite Hi, Hgs.
    cbn [map fst snd]. unfold lift at 1. unfold io_bind at 1.
    cbn [for_each]. rewrite Hkey. reflexivity.
Qed.

Lemma views_raise_after_printing_witness :
  Views.symbols_details no_symbol_column
  = ([mkPrinted 123 (Plain "Available Symbols:")], Raise (KeyError "Symbol"))
  /\ exists k0 e,
       Views.details no_date_column
       = ([mkPrinted 131 (Plain (String "010" "Symbol: " ++ k0))], Raise e)
       /\ is_KeyError e.
Proof.
  split.
  - apply (proj1 (views_raise_after_printing no_symbol_column)).
    simpl. intros [H | [H | [H | []]]]; discriminate.
  - apply (proj2 (views_raise_after_printing no_date_column))
      with (r := [Text "DIVIDEND RECEIVED"; Text "BBB"; Number 5]) (k := "BBB").
    + simpl. tauto.
    + simpl. intros [H | [H | [H | []]]]; discriminate.
    + simpl. tauto.
    + reflexivity.
Defined.

Section UniqueFacts.

Import Pandas.

Let step (seen : list cell) (c : cell) : list cell :=
  if existsb (cell_eqb c) seen then seen else (seen ++ [c])%list.

Lemma cell_eqb_refl (c : cell) : cell_eqb c c = true.
Proof.
  destruct c as [| s | q]; simpl.
  - reflexivity.
  - apply String.eqb_refl.
  - apply Qeq_bool_iff. reflexivity.
Qed.

Lemma unique_from_prefix (col acc : list cell) :
  exists rest, fold_left step col acc = (acc ++ rest)%list.
Proof.
  revert acc; induction col as [| c col IH]; intros acc; simpl.
  - exists []. now rewrite app_nil_r.
  - unfold step at 2. destruct (existsb (cell_eqb c) acc).
    + apply IH.
    + destruct (IH (acc ++ [c])%list) as [rest ->].
      exists (c :: rest). now rewrite <- app_assoc.
Qed.

Lemma unique_from_in (col acc : list cell) (c : cell) :
  In c (fold_left step col acc) -> In c acc \/ In c col.
Proof.
  revert acc; induction col as [| d col IH]; intros acc; simpl.
  - now left.
  - intros H. apply IH in H. destruct H as [H | H]; [| now right; right].
    unfold step in H. destruct (existsb (cell_eqb d) acc); [now left |].
    apply in_app_or in H. destruct H as [H | [<- | []]]; [now left | right; now left].
Qed.

Lemma unique_from_covers (col acc : list cell) (c : cell) :
  In c col \/ existsb (cell_eqb c) acc = true ->
  existsb (cell_eqb c) (fold_left step col acc) = true.
Proof.
  revert acc; induction col as [| d col IH]; intros acc; simpl.
  - intros [[] | H]. exact H.
  - intros [[-> | Hin] | Hacc].
    + apply IH. right. unfold step.
      destruct (existsb (cell_eqb c) acc) eqn:Hc; [exact Hc |].
      rewrite existsb_app. simpl. now rewrite cell_eqb_refl, orb_true_r.
    + apply IH. now left.
    + apply IH. right. unfold step.
      destruct (existsb (cell_eqb d) acc); [exact Hacc |].
      rewrite existsb_app, Hacc. reflexivity.
Qed.

Lemma distinct_snoc (l : list cell) (c : cell) :
  distinct_cells l -> existsb (cell_eqb c) l = false ->
  distinct_cells (l ++ [c]).
Proof.
  intros Hl Hc l1 d l2 Heq.
  destruct l2 as [| x l2] using rev_ind.
  - apply app_inj_tail in Heq. destruct Heq as [<- <-]. exact Hc.
  - clear IHl2. change (l1 ++ d :: l2 ++ [x])%list
      with (l1 ++ (d :: l2) ++ [x])%list in Heq.
    rewrite app_assoc in Heq. apply app_inj_tail in Heq.
    destruct Heq as [Heq _]. exact (Hl _ _ _ Heq).
Qed.

Lemma unique_from_distinct (col acc : list cell) :
  distinct_cells acc -> distinct_cells (fold_left step col acc).
Proof.
  revert acc; induction col as [| c col IH]; intros acc Hacc; simpl.
  - exact Hacc.
  - apply IH. unfold step.
    destruct (existsb (cell_eqb c) acc) eqn:Hc; [exact Hacc |].
    now apply distinct_snoc.
Qed.

(** [unique]: the cells of the column, none twice, by first appearance. *)
Lemma unique_spec (col : list cell) :
  (forall c, In c (unique col) -> In c col)
  /\ (forall c, In c col -> existsb (cell_eqb c) (unique col) = true)
  /\ distinct_cells (unique col)
  /\ (forall col1 col2, col = (col1 ++ col2)%list ->
                        exists rest, unique col = (unique col1 ++ rest)%list).
Proof.
  unfold unique. fold step. repeat split.
  - intros c H. apply unique_from_in in H. destruct H as [[] | H]. exact H.
  - intros c H. apply unique_from_covers. now left.
  - apply unique_from_distinct. intros l1 c l2 H. now destruct l1.
  - intros col1 col2 ->. rewrite fold_left_app. apply unique_from_prefix.
Qed.

End UniqueFacts.

(** X12.  On a frame with a symbol column the symbols view prints its
    heading and then one entry per distinct symbol cell: each entry is the
    symbol cell of some row, the symbol cell of every row is listed (a
    missing symbol too, as one entry), none is listed twice, and the order
    is that of first appearance in the file.  It never raises. *)
Theorem symbols_lists_distinct_symbols (divs : DataFrame) :
  In "Symbol" (columns divs) ->
  exists cells,
    Views.symbols_details divs
    = (mkPrinted 123 (Plain "Available Symbols:")
         :: map (fun c => mkPrinted 126 (StrOf c)) cells,
       Ok tt)
    /\ (forall c, In c cells ->
                  exists r, In r (data divs) /\ field divs "Symbol" r = c)
    /\ (forall r, In r (data divs) ->
                  existsb (Pandas.cell_eqb (field divs "Symbol" r)) cells = true)
    /\ distinct_cells cells
    /\ (forall rows1 rows2,
          data divs = (rows1 ++ rows2)%list ->
          exists rest,
            cells = (Pandas.unique (map (field divs "Symbol") rows1) ++ rest)%list).
Proof.
  intros Hs. apply get_loc_In in Hs. destruct Hs as [i Hi].
  assert (Hcol : forall rows, map (field divs "Symbol") rows
                              = map (Pandas.at_pos i) rows).
  { intros rows. apply map_ext. intros r. now apply field_at. }
  destruct (unique_spec (map (Pandas.at_pos i) (data divs)))
    as [Hin [Hcover [Hdistinct Hprefix]]].
  exists (Pandas.unique (map (Pandas.at_pos i) (data divs))).
  split; [| split; [| split; [| split]]].
  - unfold Views.symbols_details. rewrite (getitem_at _ _ _ Hi).
    unfold lift. cbn [print io_bind app]. rewrite for_each_print. reflexivity.
  - intros c Hc. apply Hin in Hc. apply in_map_iff in Hc.
    destruct Hc as [r [<- Hr]]. exists r. split; [exact Hr | now apply field_at].
  - intros r Hr. apply Hcover. rewrite (field_at _ _ _ r Hi). now apply in_map.
  - exact Hdistinct.
  - intros rows1 rows2 Hrows. rewrite Hcol.
    apply (Hprefix _ (map (Pandas.at_pos i) rows2)).
    now rewrite Hrows, map_app.
Qed.

Lemma symbols_lists_distinct_symbols_witness :
  exists cells,
    Views.symbols_details dividend_without_symbol
    = (mkPrinted 123 (Plain "Available Symbols:")
         :: map (fun c => mkPrinted 126 (StrOf c)) cells,
       Ok tt)
    /\ distinct_cells cells.
Proof.
  destruct (symbols_lists_distinct_symbols dividend_without_symbol)
    as [cells [Hout [_ [_ [Hd _]]]]].
  - simpl. tauto.
  - exists cells. auto.
Defined.

(** X13.  The reports "print" and "all" (the lambdas of lines 26 and 27)
    print one entry, the date, symbol and amount of every row of the frame
    in file order, when the frame has the three columns; when one is
    missing they raise KeyError and print nothing. *)
Theorem print_and_all_reports (divs : DataFrame) :
  (In "Run Date" (columns divs) /\ In "Symbol" (columns divs)
   /\ In "Amount ($)" (columns divs) ->
   report_print divs
   = ([mkPrinted 26 (FrameRepr (shown_rows divs (data divs)))], Ok tt)
   /\ report_all divs
      = ([mkPrinted 27 (FrameString (shown_rows divs (data divs)))], Ok tt))
  /\ (~ (In "Run Date" (columns divs) /\ In "Symbol" (columns divs)
         /\ In "Amount ($)" (columns divs)) ->
      exists e, is_KeyError e
                /\ report_print divs = ([], Raise e)
                /\ report_all divs = ([], Raise e)).
Proof.
  split.
  - intros [Hd [Hs Ha]]. unfold report_print, report_all.
    destruct divs as [cols rows]. cbn [columns data] in *.
    rewrite (getitems_shown cols rows Hd Hs Ha). split; reflexivity.
  - intros Hn. destruct (getitems_missing divs Hn) as [k Hk].
    exists (KeyError k). unfold report_print, report_all. rewrite Hk.
    repeat split. now exists k.
Qed.

Lemma print_and_all_reports_witness :
  report_print scenario
  = ([mkPrinted 26 (FrameRepr (shown_rows scenario (data scenario)))], Ok tt)
  /\ exists e, is_KeyError e /\ report_all no_date_column = ([], Raise e).
Proof.
  split.
  - apply (proj1 (print_and_all_reports scenario)). simpl. tauto.
  - destruct (proj2 (print_and_all_reports no_date_column)) as [e [He [_ Hall]]].
    + simpl. intros [[H | [H | [H | []]]] _]; discriminate.
    + exists e. auto.
Defined.

(* ------------------------------------------------------------------ *)
(** ** The process and the command *)

Section RaiseFacts.

Variable P : exn -> Prop.

Lemma raises_only_print (line : nat) (what : shown) :
  raises_only P (print line what).
Proof. exact I. Qed.

Lemma raises_only_ret {A : Type} (a : A) : raises_only P (io_ret a).
Proof. exact I. Qed.

Lemma raises_only_bind {A B : Type} (m : IO A) (k : A -> IO B) :
  raises_only P m -> (forall a, raises_only P (k a)) ->
  raises_only P (io_bind m k).
Proof.
  unfold raises_only, io_bind. intros Hm Hk.
  destruct m as [out [a | e]]; simpl in *.
  - specialize (Hk a). now destruct (k a).
  - exact Hm.
Qed.

Lemma raises_only_for_each {A : Type} (l : list A) (body : A -> IO unit) :
  (forall x, raises_only P (body x)) -> raises_only P (for_each l body).
Proof.
  intros Hbody. induction l as [| x l IH]; simpl.
  - exact I.
  - apply raises_only_bind; auto.
Qed.

End RaiseFacts.

Lemma getitem_raises (df : DataFrame) (name : string) :
  raises_only is_KeyError (lift (Pandas.getitem df name)).
Proof.
  unfold raises_only, lift, Pandas.getitem. simpl.
  destruct (Pandas.get_loc name (columns df)); simpl; [exact I | now eexists].
Qed.

Lemma groupby_raises (df : DataFrame) (name : string) :
  raises_only is_KeyError (lift (Pandas.groupby df name)).
Proof.
  unfold raises_only, lift, Pandas.groupby. simpl.
  destruct (Pandas.get_loc name (columns df)); simpl; [exact I | now eexists].
Qed.

Lemma locs_raises (names cols : list string) (e : exn) :
  Pandas.locs names cols = Raise e -> is_KeyError e.
Proof.
  induction names as [| n names IH]; simpl; [discriminate |].
  destruct (Pandas.get_loc n cols); [| intros [= <-]; now eexists].
  destruct (Pandas.locs names cols); [discriminate |].
  intros [= <-]. now apply IH.
Qed.

Lemma getitems_raises (df : DataFrame) (names : list string) :
  raises_only is_KeyError (lift (Pandas.getitems df names)).
Proof.
  unfold raises_only, lift, Pandas.getitems. simpl.
  destruct (Pandas.locs names (columns df)) eqn:H; simpl; [exact I |].
  now apply (locs_raises _ _ _ H).
Qed.

Ltac view_raises :=
  repeat first
    [ apply raises_only_bind; [| intros ? ]
    | apply raises_only_for_each; intros [? ?]
    | apply raises_only_for_each; intros ?
    | apply getitem_raises
    | apply groupby_raises
    | apply getitems_raises
    | apply raises_only_print
    | apply raises_only_ret ].

Ltac view_lines :=
  repeat first
    [ apply prints_only_bind; [| intros ? ]
    | apply prints_only_for_each; intros [? ?]
    | apply prints_only_for_each; intros ?
    | apply prints_only_lift
    | apply prints_only_ret
    | apply prints_only_print; repeat split; discriminate ].

(** What a view of the report map does: it raises KeyError only, and it
    prints from its own lines only. *)
Lemma views_behave (report : string) (report_view : view) (divs : DataFrame) :
  dict_get report
    (dict_set "symbols" Views.symbols_details
       (dict_set "details" Views.details (dict_set "sum" Views.sum report_map)))
  = Some report_view ->
  In report REPORTS
  /\ raises_only is_KeyError (report_view divs)
  /\ prints_only (fun n => n <> 110%nat /\ n <> 142%nat /\ n <> 147%nat)
                 (report_view divs).
Proof.
  rewrite overridden_report_map. cbn [dict_get].
  destruct (String.eqb_spec "sum" report) as [<- | _].
  { intros [= <-]. split; [simpl; tauto | split].
    - unfold Views.sum. destruct (Pandas.empty divs); view_raises.
    - unfold Views.sum. destruct (Pandas.empty divs); view_lines. }
  destruct (String.eqb_spec "symbols" report) as [<- | _].
  { intros [= <-]. split; [simpl; tauto | split].
    - unfold Views.symbols_details. view_raises.
    - unfold Views.symbols_details. view_lines. }
  destruct (String.eqb_spec "details" report) as [<- | _].
  { intros [= <-]. split; [simpl; tauto | split].
    - unfold Views.details. view_raises.
    - unfold Views.details. view_lines. }
  destruct (String.eqb_spec "print" report) as [<- | _].
  { intros [= <-]. split; [simpl; tauto | split].
    - unfold report_print. view_raises.
    - unfold report_print. view_lines. }
  destruct (String.eqb_spec "all" report) as [<- | _].
  { intros [= <-]. split; [simpl; tauto | split].
    - unfold report_all. view_raises.
    - unfold report_all. view_lines. }
  discriminate.
Qed.

Lemma report_known (report : string) :
  In report REPORTS ->
  exists report_view,
    dict_get report
      (dict_set "symbols" Views.symbols_details
         (dict_set "details" Views.details (dict_set "sum" Views.sum report_map)))
    = Some report_view.
Proof.
  rewrite overridden_report_map.
  intros [<- | [<- | [<- | [<- | [<- | []]]]]]; eexists; reflexivity.
Qed.

Lemma report_unknown (report : string) :
  ~ In report REPORTS ->
  dict_get report
    (dict_set "symbols" Views.symbols_details
       (dict_set "details" Views.details (dict_set "sum" Views.sum report_map)))
  = None.
Proof.
  intros Hn.
  match goal with
  | |- ?d = None => destruct d as [rv |] eqn:H; [| reflexivity]
  end.
  exfalso. apply Hn. exact (proj1 (views_behave report rv (mkFrame [] []) H)).
Qed.

(** The run of [dividend_csv_process] once [__enter__] has returned. *)
Lemma process_after_enter (numeric_literal : string -> option Q)
      (fs : filesystem) (report : string) (action : Action) (path : string)
      (symbol : option string) (divs : DataFrame) :
  __enter__ numeric_literal fs (mkDividend path action symbol) = Ok (Some divs) ->
  dividend_csv_process numeric_literal fs report action path symbol
  = match dict_get report
            (dict_set "symbols" Views.symbols_details
               (dict_set "details" Views.details
                  (dict_set "sum" Views.sum report_map))) with
    | Some report_view =>
        (banner report action path :: fst (report_view divs),
         match snd (report_view divs) with
         | Ok _ => Ok tt
         | Raise e => Raise e
         end)
    | None =>
        ([banner report action path;
          mkPrinted 147 (Plain ("Unknown report: " ++ report))], Ok tt)
    end.
Proof.
  intros H. unfold dividend_csv_process, with_Dividend. rewrite H.
  match goal with
  | |- context [dict_get report ?m] => destruct (dict_get report m) as [rv |]
  end.
  - cbn [print io_bind]. destruct (rv divs) as [out [[] | e]]; reflexivity.
  - reflexivity.
Qed.




(** X15.  A report name that is not one of the five is noticed only after
    the file has been loaded and filtered: when [__enter__] returns, the
    process prints "Unknown report: <name>" after the announcement and
    returns normally; when [__enter__] raises, the exception leaves the
    process and the name is never looked at. *)
Theorem unknown_report (numeric_literal : string -> option Q)
        (fs : filesystem) (report : string) (act : Action) (path : string)
        (sym : option string) :
  ~ In report REPORTS ->
  match __enter__ numeric_literal fs (mkDividend path act sym) with
  | Ok _ =>
      dividend_csv_process numeric_literal fs report act path sym
      = ([banner report act path;
          mkPrinted 147 (Plain ("Unknown report: " ++ report))], Ok tt)
  | Raise e =>
      dividend_csv_process numeric_literal fs report act path sym
      = ([banner report act path], Raise e)
  end.
Proof.
  intros Hn.
  destruct (__enter__ numeric_literal fs (mkDividend path act sym))
    as [v | e] eqn:Henter.
  - destruct (enter_returns_frame _ _ _ _ Henter) as [divs ->].
    rewrite (process_after_enter _ _ _ _ _ _ _ Henter).
    now rewrite (report_unknown report Hn).
  - exact (process_enter_raises numeric_literal fs report
             (mkDividend path act sym) e Henter).
Qed.

Lemma unknown_report_witness :
  dividend_csv_process two_literals (one_file "f.csv" (Parsed scenario))
    "totals" DIVIDEND "f.csv" None
  = ([banner "totals" DIVIDEND "f.csv";
      mkPrinted 147 (Plain "Unknown report: totals")], Ok tt).
Proof.
  apply (unknown_report two_literals (one_file "f.csv" (Parsed scenario))
           "totals" DIVIDEND "f.csv" None).
  simpl. intros [H | [H | [H | [H | [H | []]]]]]; discriminate.
Defined.

Lemma reports_existsb (report : string) :
  existsb (String.eqb report) REPORTS = true <-> In report REPORTS.
Proof.
  rewrite existsb_exists. split.
  - intros [x [Hin Heq]]. apply String.eqb_eq in Heq. now subst x.
  - intros Hin. exists report. split; [exact Hin | apply String.eqb_refl].
Qed.



(** X17.  Whatever the command is given, two prints of
    [dividend_csv_process] never run: "No data available." (line 142) and
    "Unknown report: ..." (line 147), the report name having been checked
    before [main] is entered; and the announcement of line 110 is printed
    at most once, first. *)
Theorem main_never_prints (numeric_literal : string -> option Q)
        (fs : filesystem) (report act path : string) (sym : option string) :
  let out := fst (main numeric_literal fs report act path sym) in
  (forall p, In p out -> lineno p <> 142%nat /\ lineno p <> 147%nat)
  /\ (out = []
      \/ exists a rest,
           out = banner report a path :: rest
           /\ forall p, In p rest -> lineno p <> 110%nat).
Proof.
  cbv zeta. unfold main.
  destruct (existsb (String.eqb report) REPORTS) eqn:Hr; cbn [negb];
    [| split; [intros p [] | now left]].
  destruct (Action_of_value act) as [a |]; [| split; [intros p [] | now left]].
  destruct (os_path_exists fs path) eqn:He; cbn [negb];
    [| split; [intros p [] | now left]].
  apply reports_existsb in Hr. destruct (report_known report Hr) as [rv Hrv].
  assert (Hrun : exists rest,
             fst (dividend_csv_process numeric_literal fs report a path sym)
             = banner report a path :: rest
             /\ Forall (fun p => lineno p <> 110%nat /\ lineno p <> 142%nat
                                 /\ lineno p <> 147%nat) rest).
  { destruct (__enter__ numeric_literal fs (mkDividend path a sym))
      as [v | e] eqn:Henter.
    - destruct (enter_returns_frame _ _ _ _ Henter) as [divs ->].
      rewrite (process_after_enter _ _ _ _ _ _ _ Henter), Hrv. cbn [fst].
      eexists. split; [reflexivity |].
      exact (proj2 (proj2 (views_behave report rv divs Hrv))).
    - pose proof (process_enter_raises numeric_literal fs report
                    (mkDividend path a sym) e Henter) as Hp.
      cbn [file_path action symbol] in Hp. rewrite Hp.
      exists []. split; [reflexivity | constructor]. }
  destruct Hrun as [rest [Hout Hrest]]. rewrite Forall_forall in Hrest.
  destruct (dividend_csv_process numeric_literal fs report a path sym)
    as [out [[] | e]]; cbn [fst] in *; subst out.
  - split.
    + intros p [<- | Hp]; [split; discriminate |]. split; now apply Hrest.
    + right. exists a, rest. split; [reflexivity |]. intros p Hp. now apply Hrest.
  - split.
    + intros p [<- | Hp]; [split; discriminate |]. split; now apply Hrest.
    + right. exists a, rest. split; [reflexivity |]. intros p Hp. now apply Hrest.
Qed.

Lemma main_never_prints_witness :
  lineno (banner "sum" DIVIDEND "f.csv") <> 142%nat
  /\ lineno (banner "sum" DIVIDEND "f.csv") <> 147%nat.
Proof.
  apply (proj1 (main_never_prints two_literals
                  (one_file "f.csv" (Parsed scenario))
                  "sum" "dividend" "f.csv" None)).
  simpl. left. reflexivity.
Defined.




(* ------------------------------------------------------------------ *)
(** ** The printed total *)

Lemma round_half_even_integer (q : Q) (z : Z) :
  q == inject_Z z -> Format.round_half_even q = z.
Proof.
  destruct q as [n d]. unfold Qeq, Format.round_half_even. cbn [Qnum Qden inject_Z].
  rewrite Z.mul_1_r. intros ->.
  rewrite Z.div_mul, Z.mod_mul by discriminate.
  reflexivity.
Qed.

Lemma decimal_digit (d : Z) :
  (0 <= d < 10)%Z -> String.length (Format.decimal d) = 1%nat.
Proof.
  intros H.
  assert (Hd : d = 0%Z \/ d = 1%Z \/ d = 2%Z \/ d = 3%Z \/ d = 4%Z \/ d = 5%Z
               \/ d = 6%Z \/ d = 7%Z \/ d = 8%Z \/ d = 9%Z) by lia.
  repeat (destruct Hd as [-> | Hd]; [reflexivity |]). now subst d.
Qed.

Lemma length_append (s t : string) :
  String.length (s ++ t) = (String.length s + String.length t)%nat.
Proof.
  induction s as [| c s IH]; simpl; [reflexivity | now rewrite IH].
Qed.

(** X19.  A total that is a whole number of cents is printed exactly: a
    minus sign when it is negative, the dollars, a point and the cents on
    two digits. *)
Theorem whole_cents_print_exactly (k : string) (q : Q) (c : Z) :
  q == c # 100 ->
  total_line (k, q)
  = mkPrinted 119
      (Plain ("Total Amount for " ++ k ++ ": $"
              ++ (if (c <? 0)%Z then "-" else "")
              ++ Format.decimal (Z.abs c / 100) ++ "."
              ++ Format.two_digits (Z.abs c mod 100)))
  /\ String.length (Format.two_digits (Z.abs c mod 100)) = 2%nat.
Proof.
  intros Hq. split.
  - unfold total_line, Format.fixed2. cbn [fst snd].
    assert (Hround : Format.round_half_even (Qabs q * 100) = Z.abs c).
    { apply round_half_even_integer. rewrite (Qabs_wd _ _ Hq).
      unfold Qeq. simpl. lia. }
    assert (Hsign : Qle_bool 0 q = negb (c <? 0)%Z).
    { destruct (c <? 0)%Z eqn:Hc; simpl.
      - apply Z.ltb_lt in Hc.
        destruct (Qle_bool 0 q) eqn:Hle; [| reflexivity].
        apply Qle_bool_iff in Hle. rewrite Hq in Hle.
        unfold Qle in Hle. simpl in Hle. lia.
      - apply Z.ltb_ge in Hc. apply Qle_bool_iff. rewrite Hq.
        unfold Qle. simpl. lia. }
    rewrite Hround, Hsign. now destruct (c <? 0)%Z.
  - unfold Format.two_digits. rewrite length_append.
    assert (Hm : (0 <= Z.abs c mod 100 < 100)%Z) by (apply Z.mod_pos_bound; lia).
    rewrite !decimal_digit; [reflexivity | |].
    + apply Z.mod_pos_bound. lia.
    + split; [apply Z.div_pos; lia | apply Z.div_lt_upper_bound; lia].
Qed.

Lemma whole_cents_print_exactly_witness :
  total_line ("BBB", 0 + (-10 # 1))
  = mkPrinted 119 (Plain "Total Amount for BBB: $-10.00").
Proof.
  refine (proj1 (whole_cents_print_exactly "BBB" (0 + (-10 # 1)) (-1000) _)).
  vm_compute. reflexivity.
Defined.

(* ------------------------------------------------------------------ *)
(** ** The symbol filter and the totals *)

Lemma filter_filter {A : Type} (f g : A -> bool) (l : list A) :
  filter f (filter g l) = filter (fun x => g x && f x) l.
Proof.
  induction l as [| x l IH]; simpl; [reflexivity |].
  destruct (g x); simpl; [destruct (f x) |]; now rewrite IH.
Qed.

Lemma category_keep_symbol (a : Action) (df : DataFrame) (s : string) (r : row) :
  category_keep a df (Some s) r
  = category_keep a df None r && symbol_kept df s r.
Proof.
  destruct a; unfold category_keep, dividend_keep, investment_keep, symbol_keep;
    now rewrite ?andb_true_r.
Qed.

(** X20.  The symbol filter is a filter on the result without it: when
    [__enter__] without a filter returns a frame with a symbol column, then
    with a non-empty filter it returns the rows of that frame whose symbol
    is the upper-cased filter, in the same order, under the same header. *)
Theorem symbol_filter_is_post_filter (numeric_literal : string -> option Q)
        (fs : filesystem) (path : string) (a : Action) (s : string)
        (all : DataFrame) :
  __enter__ numeric_literal fs (mkDividend path a None) = Ok (Some all) ->
  In "Symbol" (columns all) ->
  s <> "" ->
  __enter__ numeric_literal fs (mkDividend path a (Some s))
  = Ok (Some (mkFrame (columns all) (rows_of_symbol all (PyStr.upper s)))).
Proof.
  intros Hall Hs Hne.
  destruct (enter_ok_inv _ _ _ _ Hall) as [loaded [Hload ->]].
  cbn [file_path action] in *.
  assert (Hgiven : symbol_given (mkDividend path a (Some s)) = Some s).
  { unfold symbol_given. cbn [symbol]. destruct s; [congruence | reflexivity]. }
  assert (Hact : In "Action" (columns loaded)).
  { rewrite (enter_rowwise numeric_literal fs (mkDividend path a None) loaded Hload)
      in Hall.
    unfold require_columns in Hall.
    destruct (Pandas.get_loc "Action" (columns loaded)) as [k |] eqn:Hk.
    - apply get_loc_In. now exists k.
    - rewrite (getitem_missing _ _ Hk) in Hall. discriminate. }
  rewrite (enter_rowwise numeric_literal fs (mkDividend path a (Some s)) loaded Hload).
  rewrite Hgiven, (require_columns_ok _ _ Hact (or_intror Hs)).
  cbn [action]. unfold filter_rows, rows_of_symbol. cbn [columns data].
  do 3 f_equal. rewrite filter_filter. apply filter_ext. intros r.
  rewrite category_keep_symbol. f_equal.
Qed.

Lemma symbol_filter_is_post_filter_witness :
  __enter__ two_literals (one_file "f.csv" (Parsed scenario))
    (mkDividend "f.csv" DIVIDEND (Some "aaa"))
  = Ok (Some (mkFrame (columns scenario)
                (rows_of_symbol
                   (mkFrame (columns scenario) (firstn 2 (data scenario)))
                   "AAA"))).
Proof.
  apply (symbol_filter_is_post_filter two_literals
           (one_file "f.csv" (Parsed scenario)) "f.csv" DIVIDEND "aaa"
           (mkFrame (columns scenario) (firstn 2 (data scenario)))).
  - reflexivity.
  - simpl. tauto.
  - discriminate.
Defined.

Lemma empty_false (df : DataFrame) :
  columns df <> [] -> data df <> [] -> Pandas.empty df = false.
Proof.
  unfold Pandas.empty. destruct (columns df), (data df); congruence.
Qed.

Lemma group_rows_single (i : nat) (u : string) (rs : list row) :
  (forall r, In r rs -> Pandas.at_pos i r = Text u) ->
  rs <> [] ->
  Pandas.group_rows i rs = [(u, rs)].
Proof.
  induction rs as [| r rs IH] using rev_ind; [congruence |].
  intros Hall _. rewrite group_rows_snoc.
  rewrite (Hall r) by (apply in_or_app; right; now left).
  destruct rs as [| r0 rs0].
  - reflexivity.
  - rewrite IH; [| intros r' Hr'; apply Hall, in_or_app; now left | discriminate].
    cbn [Pandas.insert_group]. now rewrite text_compare_refl.
Qed.

(** X21.  The sum report with a symbol filter agrees with the sum report
    without it: on the rows of a frame whose symbol is [u], the view
    prints its notice when there is no such row and otherwise exactly one
    line, the very line the view prints for [u] on the whole frame. *)
Theorem filtered_total_is_unfiltered_total (all : DataFrame) (u : string) :
  In "Symbol" (columns all) ->
  In "Amount ($)" (columns all) ->
  let filtered := mkFrame (columns all) (rows_of_symbol all u) in
  (rows_of_symbol all u = [] ->
   Views.sum filtered = ([mkPrinted 113 (Plain "No dividends found.")], Ok tt))
  /\ (rows_of_symbol all u <> [] ->
      exists t totals,
        Views.sum filtered = ([total_line (u, t)], Ok tt)
        /\ Views.sum all = (map total_line totals, Ok tt)
        /\ In (u, t) totals).
Proof.
  intros Hs Ha filtered.
  pose proof Hs as Hs'. apply get_loc_In in Hs'. destruct Hs' as [i Hi].
  pose proof Ha as Ha'. apply get_loc_In in Ha'. destruct Ha' as [j Hj].
  assert (Hcols : exists c cs, columns all = c :: cs).
  { destruct (columns all) as [| c cs]; [destruct Hs | now exists c, cs]. }
  destruct Hcols as [c [cs Hcols]].
  split.
  - intros Hnone. unfold Views.sum, Pandas.empty, filtered.
    cbn [columns data]. rewrite Hnone, Hcols. reflexivity.
  - intros Hsome.
    assert (Hrows : rows_of_symbol all u = rows_with_key i u (data all))
      by now apply rows_of_symbol_at.
    assert (Hnonempty : data all <> []).
    { intros Hd. apply Hsome. unfold rows_of_symbol. now rewrite Hd. }
    exists (Pandas.series_sum (map (Pandas.at_pos j) (rows_of_symbol all u))),
           (map (fun kg => (fst kg, Pandas.series_sum
                                       (map (Pandas.at_pos j) (snd kg))))
                (Pandas.group_rows i (data all))).
    split; [| split].
    + unfold Views.sum, Pandas.groupby.
      rewrite empty_false; [| unfold filtered; cbn [columns]; congruence
                              | exact Hsome].
      unfold filtered. cbn [columns data]. rewrite Hi.
      rewrite (group_rows_single i u (rows_of_symbol all u)).
      * unfold lift, io_bind at 1.
        rewrite (for_each_totals (columns all) j _ Hj). reflexivity.
      * intros r Hin. rewrite Hrows in Hin. now apply in_rows_with_key in Hin.
      * exact Hsome.
    + unfold Views.sum, Pandas.groupby.
      rewrite empty_false; [| congruence | exact Hnonempty].
      rewrite Hi. unfold lift, io_bind at 1.
      rewrite (for_each_totals (columns all) j _ Hj). reflexivity.
    + destruct (group_rows_spec i (data all)) as [_ [Hgroups Hkeys]].
      destruct (rows_of_symbol all u) as [| r0 rs0] eqn:Hr; [congruence |].
      assert (Hr0 : In r0 (rows_with_key i u (data all)))
        by (rewrite <- Hrows; now left).
      apply in_rows_with_key in Hr0. destruct Hr0 as [Hin0 Hkey0].
      pose proof (Hkeys r0 u Hin0 Hkey0) as Hk.
      apply in_map_iff in Hk. destruct Hk as [[k rs] [Hfst Hin]].
      simpl in Hfst. subst k. apply in_map_iff. exists (u, rs).
      split; [| exact Hin]. cbn [fst snd].
      destruct (Hgroups _ _ Hin) as [-> _]. now rewrite <- Hrows.
Qed.

Lemma filtered_total_is_unfiltered_total_witness :
  exists t totals,
    Views.sum (mkFrame (columns scenario) (rows_of_symbol scenario "BBB"))
    = ([total_line ("BBB", t)], Ok tt)
    /\ Views.sum scenario = (map total_line totals, Ok tt)
    /\ In ("BBB", t) totals.
Proof.
  apply (proj2 (filtered_total_is_unfiltered_total scenario "BBB"
                  ltac:(simpl; tauto) ltac:(simpl; tauto))).
  discriminate.
Defined.
